(** * exutils: handler-result normalisation and the HTTP error model

    A shallow embedding of the TypeScript sources of the library
    (status table, [getErrorName], [HttpError], [handleResult],
    [asyncHandler], [globalErrorHandler], [proxyWrapper]) together with
    the properties stated about them. *)

From Stdlib Require Import ZArith String Ascii List Bool Lia.
From Stdlib Require Import DecimalString DecimalPos DecimalZ.
From ExtLib Require Import Structures.Monad Structures.MonadExc.
Import ListNotations.
Import MonadNotation.

Local Open Scope string_scope.
Local Open Scope Z_scope.
Local Open Scope monad_scope.

(* ===================================================================== *)
(** ** String primitives used by the sources

    JavaScript strings are modelled as [string] (sequences of 8-bit
    characters); the case conversions act on the ASCII letters, which is
    all the status table contains. *)
(* ===================================================================== *)

Module Str.

Definition in_range (lo hi : nat) (c : ascii) : bool :=
  let n := nat_of_ascii c in (Nat.leb lo n && Nat.leb n hi)%bool.

Definition is_upper : ascii -> bool := in_range 65 90.
Definition is_lower : ascii -> bool := in_range 97 122.
Definition is_digit : ascii -> bool := in_range 48 57.

(** The regular-expression class [\w]: letters, digits and underscore. *)
Definition is_word (c : ascii) : bool :=
  (is_upper c || is_lower c || is_digit c || Ascii.eqb c "_")%bool.

(** The regular-expression class [\s], restricted to its ASCII members:
    tab, line feed, vertical tab, form feed, carriage return, space. *)
Definition is_space (c : ascii) : bool :=
  (in_range 9 13 c || Ascii.eqb c " ")%bool.

Definition lower_char (c : ascii) : ascii :=
  if is_upper c then ascii_of_nat (nat_of_ascii c + 32) else c.

Definition upper_char (c : ascii) : ascii :=
  if is_lower c then ascii_of_nat (nat_of_ascii c - 32) else c.

Fixpoint map_chars (f : ascii -> ascii) (s : string) : string :=
  match s with
  | EmptyString => EmptyString
  | String c r => String (f c) (map_chars f r)
  end.

(** [s.toLowerCase()] *)
Definition toLowerCase : string -> string := map_chars lower_char.

(** [s.toUpperCase()] *)
Definition toUpperCase : string -> string := map_chars upper_char.

(** [s.replace(/_/g, ' ')] *)
Definition underscores_to_spaces : string -> string :=
  map_chars (fun c => if Ascii.eqb c "_" then " "%char else c).

(** [s.replace(/\b\w/g, char => char.toUpperCase())]: a word character is
    matched exactly when no word character precedes it; [prev] records
    whether the preceding character was a word character. *)
Fixpoint capitalize_words (prev : bool) (s : string) : string :=
  match s with
  | EmptyString => EmptyString
  | String c r =>
      String (if (is_word c && negb prev)%bool then upper_char c else c)
             (capitalize_words (is_word c) r)
  end.

(** [s.replace(/\s+/g, '')] *)
Fixpoint remove_spaces (s : string) : string :=
  match s with
  | EmptyString => EmptyString
  | String c r => if is_space c then remove_spaces r
                  else String c (remove_spaces r)
  end.

(** [s.endsWith(suffix)] *)
Definition endsWith (s suffix : string) : bool :=
  let n := String.length s in
  let m := String.length suffix in
  (Nat.leb m n && String.eqb (substring (n - m) m s) suffix)%bool.

(** A template literal [`${n}`] for an integer [n]. *)
Definition of_Z (n : Z) : string := NilZero.string_of_int (Z.to_int n).

Fixpoint all_chars (p : ascii -> bool) (s : string) : bool :=
  match s with
  | EmptyString => true
  | String c r => (p c && all_chars p r)%bool
  end.

(** Splitting at every occurrence of a separator character. *)
Fixpoint split_on (sep : ascii) (s : string) : list string :=
  match s with
  | EmptyString => [EmptyString]
  | String c r =>
      if Ascii.eqb c sep then EmptyString :: split_on sep r
      else match split_on sep r with
           | w :: ws => String c w :: ws
           | [] => [String c EmptyString]
           end
  end.

End Str.

(* ===================================================================== *)
(** ** The status table ([HttpStatus])

    The frozen object pairs every numeric constant with a
    ["<code>_NAME"] entry holding its symbolic name. *)
(* ===================================================================== *)

Module HttpStatus.

Definition CONTINUE : Z := 100.
Definition SWITCHING_PROTOCOLS : Z := 101.
Definition PROCESSING : Z := 102.
Definition EARLYHINTS : Z := 103.
Definition OK : Z := 200.
Definition CREATED : Z := 201.
Definition ACCEPTED : Z := 202.
Definition NON_AUTHORITATIVE_INFORMATION : Z := 203.
Definition NO_CONTENT : Z := 204.
Definition RESET_CONTENT : Z := 205.
Definition PARTIAL_CONTENT : Z := 206.
Definition AMBIGUOUS : Z := 300.
Definition MOVED_PERMANENTLY : Z := 301.
Definition FOUND : Z := 302.
Definition SEE_OTHER : Z := 303.
Definition NOT_MODIFIED : Z := 304.
Definition TEMPORARY_REDIRECT : Z := 307.
Definition PERMANENT_REDIRECT : Z := 308.
Definition BAD_REQUEST : Z := 400.
Definition UNAUTHORIZED : Z := 401.
Definition PAYMENT_REQUIRED : Z := 402.
Definition FORBIDDEN : Z := 403.
Definition NOT_FOUND : Z := 404.
Definition METHOD_NOT_ALLOWED : Z := 405.
Definition NOT_ACCEPTABLE : Z := 406.
Definition PROXY_AUTHENTICATION_REQUIRED : Z := 407.
Definition REQUEST_TIMEOUT : Z := 408.
Definition CONFLICT : Z := 409.
Definition GONE : Z := 410.
Definition LENGTH_REQUIRED : Z := 411.
Definition PRECONDITION_FAILED : Z := 412.
Definition PAYLOAD_TOO_LARGE : Z := 413.
Definition URI_TOO_LONG : Z := 414.
Definition UNSUPPORTED_MEDIA_TYPE : Z := 415.
Definition REQUESTED_RANGE_NOT_SATISFIABLE : Z := 416.
Definition EXPECTATION_FAILED : Z := 417.
Definition I_AM_A_TEAPOT : Z := 418.
Definition MISDIRECTED : Z := 421.
Definition UNPROCESSABLE_ENTITY : Z := 422.
Definition FAILED_DEPENDENCY : Z := 424.
Definition PRECONDITION_REQUIRED : Z := 428.
Definition TOO_MANY_REQUESTS : Z := 429.
Definition INTERNAL_SERVER_ERROR : Z := 500.
Definition NOT_IMPLEMENTED : Z := 501.
Definition BAD_GATEWAY : Z := 502.
Definition SERVICE_UNAVAILABLE : Z := 503.
Definition GATEWAY_TIMEOUT : Z := 504.
Definition HTTP_VERSION_NOT_SUPPORTED : Z := 505.
Definition VARIANT_ALSO_NEGOTIATES : Z := 506.
Definition INSUFFICIENT_STORAGE : Z := 507.
Definition LOOP_DETECTED : Z := 508.
Definition BANDWIDTH_LIMIT_EXCEEDED : Z := 509.
Definition NOT_EXTENDED : Z := 510.
Definition NETWORK_AUTHENTICATION_REQUIRED : Z := 511.

(** The ["<code>_NAME"] entries, in source order. *)
Definition NAMES : list (string * string) :=
  [
    ("100_NAME", "CONTINUE");
    ("101_NAME", "SWITCHING_PROTOCOLS");
    ("102_NAME", "PROCESSING");
    ("103_NAME", "EARLY_HINTS");
    ("200_NAME", "OK");
    ("201_NAME", "CREATED");
    ("202_NAME", "ACCEPTED");
    ("203_NAME", "NON_AUTHORITATIVE_INFORMATION");
    ("204_NAME", "NO_CONTENT");
    ("205_NAME", "RESET_CONTENT");
    ("206_NAME", "PARTIAL_CONTENT");
    ("300_NAME", "AMBIGUOUS");
    ("301_NAME", "MOVED_PERMANENTLY");
    ("302_NAME", "FOUND");
    ("303_NAME", "SEE_OTHER");
    ("304_NAME", "NOT_MODIFIED");
    ("307_NAME", "TEMPORARY_REDIRECT");
    ("308_NAME", "PERMANENT_REDIRECT");
    ("400_NAME", "BAD_REQUEST");
    ("401_NAME", "UNAUTHORIZED");
    ("402_NAME", "PAYMENT_REQUIRED");
    ("403_NAME", "FORBIDDEN");
    ("404_NAME", "NOT_FOUND");
    ("405_NAME", "METHOD_NOT_ALLOWED");
    ("406_NAME", "NOT_ACCEPTABLE");
    ("407_NAME", "PROXY_AUTHENTICATION_REQUIRED");
    ("408_NAME", "REQUEST_TIMEOUT");
    ("409_NAME", "CONFLICT");
    ("410_NAME", "GONE");
    ("411_NAME", "LENGTH_REQUIRED");
    ("412_NAME", "PRECONDITION_FAILED");
    ("413_NAME", "PAYLOAD_TOO_LARGE");
    ("414_NAME", "URI_TOO_LONG");
    ("415_NAME", "UNSUPPORTED_MEDIA_TYPE");
    ("416_NAME", "REQUESTED_RANGE_NOT_SATISFIABLE");
    ("417_NAME", "EXPECTATION_FAILED");
    ("418_NAME", "I_AM_A_TEAPOT");
    ("421_NAME", "MISDIRECTED");
    ("422_NAME", "UNPROCESSABLE_ENTITY");
    ("424_NAME", "FAILED_DEPENDENCY");
    ("428_NAME", "PRECONDITION_REQUIRED");
    ("429_NAME", "TOO_MANY_REQUESTS");
    ("500_NAME", "INTERNAL_SERVER_ERROR");
    ("501_NAME", "NOT_IMPLEMENTED");
    ("502_NAME", "BAD_GATEWAY");
    ("503_NAME", "SERVICE_UNAVAILABLE");
    ("504_NAME", "GATEWAY_TIMEOUT");
    ("505_NAME", "HTTP_VERSION_NOT_SUPPORTED");
    ("506_NAME", "VARIANT_ALSO_NEGOTIATES");
    ("507_NAME", "INSUFFICIENT_STORAGE");
    ("508_NAME", "LOOP_DETECTED");
    ("509_NAME", "BANDWIDTH_LIMIT_EXCEEDED");
    ("510_NAME", "NOT_EXTENDED");
    ("511_NAME", "NETWORK_AUTHENTICATION_REQUIRED")
  ].

(** Property read [HttpStatus[key]] on the name entries; [None] stands
    for [undefined]. *)
Fixpoint lookup (key : string) (tbl : list (string * string)) : option string :=
  match tbl with
  | [] => None
  | (k, v) :: rest => if String.eqb k key then Some v else lookup key rest
  end.

(** [HttpStatus[`${status}_NAME`]] *)
Definition name_of (status : Z) : option string :=
  lookup (Str.of_Z status ++ "_NAME") NAMES.

End HttpStatus.

(* ===================================================================== *)
(** ** [getErrorName] *)
(* ===================================================================== *)

(** The chain [toLowerCase / replace / replace / replace] applied to a
    symbolic name. *)
Definition formatName (statusKey : string) : string :=
  Str.remove_spaces
    (Str.capitalize_words false
       (Str.underscores_to_spaces (Str.toLowerCase statusKey))).

Definition getErrorName (status : Z) : string :=
  if ((status <? 400) || (status >? 511))%bool then "HttpError"
  else
    match HttpStatus.name_of status with
    | None => "HttpError"
    | Some EmptyString => "HttpError"
    | Some statusKey =>
        let name := formatName statusKey in
        if Str.endsWith name "Error" then name else name ++ "Error"
    end.

(** The naming rule in the words of the specification: the symbolic name
    in PascalCase (every underscore-separated word capitalised, the
    underscores dropped), with ["Error"] appended unless already there. *)
Module NameSpec.

Definition capitalize (w : string) : string :=
  match w with
  | EmptyString => EmptyString
  | String c r => String (Str.upper_char c) (Str.toLowerCase r)
  end.

Definition pascal_case (key : string) : string :=
  String.concat "" (map capitalize (Str.split_on "_" key)).

(** The chain of replacements started with an arbitrary "the previous
    character was a word character" flag... *)
Definition pipeline (prev : bool) (s : string) : string :=
  Str.remove_spaces
    (Str.capitalize_words prev
       (Str.underscores_to_spaces (Str.toLowerCase s))).

(** ... and the word-wise description, with the first word capitalised or
    left in lower case. *)
Definition wordwise (prev : bool) (s : string) : string :=
  match Str.split_on "_" s with
  | w :: ws =>
      ((if prev then Str.toLowerCase w else capitalize w)
         ++ String.concat "" (map capitalize ws))%string
  | [] => ""
  end.

Definition with_error_suffix (name : string) : string :=
  if Str.endsWith name "Error" then name else name ++ "Error".

Definition error_name (key : string) : string :=
  with_error_suffix (pascal_case key).

End NameSpec.

(* ===================================================================== *)
(** ** JavaScript values *)
(* ===================================================================== *)

(** The fields of an [HttpError] instance: the three constructor
    parameters ([readonly msg], [readonly status], [readonly detail]) and
    the inherited [name] and [message].  The stack recorded by
    [Error.captureStackTrace] depends on the platform and is left out. *)
Record HttpErrorOf (V : Type) : Type := mkHttpError
  { msg : V;
    status : Z;
    detail : V;
    name : string;
    message : string }.

Arguments mkHttpError {V} _ _ _ _ _.
Arguments msg {V} _.
Arguments status {V} _.
Arguments detail {V} _.
Arguments name {V} _.
Arguments message {V} _.

(** Modelled from the spec: the class [ApiRes] is imported by the handler
    module but its source is not part of the repository files at hand.  An
    instance exposes [status: integer] and [toJson() -> object]; the model
    keeps the status and the object that [toJson()] returns. *)
Record ApiResOf (V : Type) : Type := mkApiRes
  { api_status : Z;
    api_json : V }.

Arguments mkApiRes {V} _ _.
Arguments api_status {V} _.
Arguments api_json {V} _.

#[local] Set Warnings "-register-all".

Inductive value : Type :=
| VUndefined
| VNull
| VBool (b : bool)
| VNumber (n : Z)
| VNaN
| VString (s : string)
| VArray (items : list value)
| VObject (props : list (string * value))
| VHttpError (e : HttpErrorOf value)
| VApiRes (r : ApiResOf value)
| VResponse (id : nat).

Definition HttpError : Type := HttpErrorOf value.
Definition ApiRes : Type := ApiResOf value.

(** An Express response object is known by its identity. *)
Definition Response : Type := nat.

(** JavaScript truthiness: [undefined], [null], [false], [0], [NaN] and the
    empty string are falsy; every object is truthy. *)
Definition truthy (v : value) : bool :=
  match v with
  | VUndefined | VNull | VNaN => false
  | VBool b => b
  | VNumber n => negb (n =? 0)
  | VString s => negb (String.eqb s "")
  | VArray _ | VObject _ | VHttpError _ | VApiRes _ | VResponse _ => true
  end.

(** [v === res] for a response object [res]: only that very object is
    identical to it. *)
Definition is_response (v : value) (res : Response) : bool :=
  match v with
  | VResponse id => Nat.eqb id res
  | _ => false
  end.

(** [typeof v === 'string'] *)
Definition is_string (v : value) : bool :=
  match v with VString _ => true | _ => false end.

(** [v == null], i.e. [v] is [null] or [undefined]. *)
Definition is_nullish (v : value) : bool :=
  match v with VUndefined | VNull => true | _ => false end.

(** Values of TypeScript type [object]: everything that is not a
    primitive. *)
Definition is_object (v : value) : bool :=
  match v with
  | VArray _ | VObject _ | VHttpError _ | VApiRes _ | VResponse _ => true
  | _ => false
  end.

(** Own-property lookup in an object literal. *)
Fixpoint lookup_prop (key : string) (props : list (string * value)) : option value :=
  match props with
  | [] => None
  | (k, v) :: rest => if String.eqb k key then Some v else lookup_prop key rest
  end.

Definition has_key (key : string) (obj : value) : bool :=
  match obj with
  | VObject props =>
      match lookup_prop key props with Some _ => true | None => false end
  | _ => false
  end.

(** The value stored under [key] of an object literal, when the key is
    there. *)
Definition field (key : string) (obj : value) : option value :=
  match obj with
  | VObject props => lookup_prop key props
  | _ => None
  end.

(* ===================================================================== *)
(** ** Effects: completions, the trace of calls on the host, the monad *)
(* ===================================================================== *)

(** How an evaluation ends: normally with a result, or abruptly with a
    thrown value. *)
Inductive completion (A : Type) : Type :=
| Normal (a : A)
| Throw (e : value).

Arguments Normal {A} _.
Arguments Throw {A} _.

(** Calls received by the host (framework and console) during one
    invocation, oldest first.  The calls return normally. *)
Inductive event : Type :=
| ResStatus (code : Z)        (* res.status(code) *)
| ResJson (body : value)      (* res.json(body) *)
| ResSend (body : value)      (* res.send(body) *)
| NextCalled (err : value)    (* next(err) *)
| ConsoleError (v : value).   (* console.error(v) *)

Definition trace : Type := list event.

(** Computations: a trace transformer that completes normally or throws.
    Calls made before a throw stay in the trace. *)
Definition M (A : Type) : Type := trace -> completion A * trace.

Definition run {A} (c : M A) (t : trace) : completion A * trace := c t.

#[global] Instance Monad_M : Monad M :=
  {| ret := fun A (a : A) => fun t => (Normal a, t);
     bind := fun A B (c : M A) (k : A -> M B) => fun t =>
               match c t with
               | (Normal a, t') => k a t'
               | (Throw e, t') => (Throw e, t')
               end |}.

(** [throw e] and [try { body } catch (error) { handler }]. *)
#[global] Instance Exc_M : MonadExc value M :=
  {| raise := fun A (e : value) => fun t => (Throw e, t);
     catch := fun A (body : M A) (handler : value -> M A) => fun t =>
                match body t with
                | (Normal a, t') => (Normal a, t')
                | (Throw e, t') => handler e t'
                end |}.

Definition emit (ev : event) : M unit :=
  fun t => (Normal tt, (t ++ [ev])%list).

(** The slice of the response API used by the library.  [status] returns
    the response itself, so the calls chain. *)
Definition res_status (code : Z) : M unit := emit (ResStatus code).
Definition res_json (body : value) : M unit := emit (ResJson body).
Definition res_send (body : value) : M unit := emit (ResSend body).

(** [console.error], the logging callback of the documented usage
    [write: error => console.error(error)]. *)
Definition console_error (v : value) : M unit := emit (ConsoleError v).

(** The host's [next] primitive. *)
Definition NextFunction : Type := value -> M unit.
Definition next_stage : NextFunction := fun err => emit (NextCalled err).

(** Promises by their eventual state.  A promise is never fulfilled with
    another promise, hence the fulfilment value is a [value]. *)
Inductive promise (A : Type) : Type :=
| Pending
| Fulfilled (v : A)
| Rejected (reason : value).

Arguments Pending {A}.
Arguments Fulfilled {A} _.
Arguments Rejected {A} _.

(** [p.then(onFulfilled)] *)
Definition promise_then {A B} (p : promise A) (onFulfilled : A -> M B)
  : M (promise B) :=
  match p with
  | Pending => ret Pending
  | Rejected r => ret (Rejected r)
  | Fulfilled v =>
      catch (b <- onFulfilled v ;; ret (Fulfilled b))
            (fun e => ret (Rejected e))
  end.

(** [p.catch(onRejected)] *)
Definition promise_catch {A} (p : promise A) (onRejected : value -> M A)
  : M (promise A) :=
  match p with
  | Pending => ret Pending
  | Fulfilled v => ret (Fulfilled v)
  | Rejected r =>
      catch (a <- onRejected r ;; ret (Fulfilled a))
            (fun e => ret (Rejected e))
  end.

(** What a handler hands back: a plain value, or a promise
    ([result instanceof Promise]). *)
Inductive result : Type :=
| RValue (v : value)
| RPromise (p : promise value).

Definition Request : Type := value.

(** [ReqHandler]: [(req, res, next) => any | Promise<any>]. *)
Definition ReqHandler : Type := Request -> Response -> NextFunction -> M result.

(** [new Error(message)]: a plain error object.  Its stack is assigned by
    the platform and is left out. *)
Definition Error_new (message : string) : value :=
  VObject [("message", VString message)].

(** [new TypeError(message)], thrown by property reads on [null] and
    [undefined]. *)
Definition TypeError_new (message : string) : value :=
  VObject [("name", VString "TypeError"); ("message", VString message)].

(** The property [key] of a value that is neither [null] nor [undefined],
    for keys that are not built-in properties of primitives and arrays
    (the sources read [message] and [stack]); a missing property reads as
    [undefined]. *)
Definition property (obj : value) (key : string) : value :=
  match obj with
  | VObject props =>
      match lookup_prop key props with Some v => v | None => VUndefined end
  | VHttpError e =>
      match lookup_prop key
              [("msg", msg e); ("status", VNumber (status e));
               ("detail", detail e); ("name", VString (name e));
               ("message", VString (message e))] with
      | Some v => v
      | None => VUndefined
      end
  | VApiRes r =>
      if String.eqb key "status" then VNumber (api_status r) else VUndefined
  | _ => VUndefined
  end.

(** Property read [obj[key]]: a [TypeError] on [null] and [undefined]. *)
Definition get (obj : value) (key : string) : M value :=
  if is_nullish obj
  then raise (TypeError_new ("Cannot read properties of null or undefined, reading " ++ key))
  else ret (property obj key).

(** Optional call [f?.(arg)]. *)
Definition optional_call (f : option (value -> M unit)) (arg : value) : M unit :=
  match f with
  | Some f => f arg
  | None => ret tt
  end.

(* ===================================================================== *)
(** ** [HttpError] and its specialisations *)
(* ===================================================================== *)

(** [new HttpError(msg, status = HttpStatus.INTERNAL_SERVER_ERROR, detail)];
    an omitted [status] is [None], an omitted [detail] is [VUndefined]. *)
Definition HttpError_new (msg : value) (status : option Z) (detail : value)
  : HttpError :=
  let status :=
    match status with
    | Some s => s
    | None => HttpStatus.INTERNAL_SERVER_ERROR
    end in
  let name := getErrorName status in
  {| msg := msg;
     status := status;
     detail := detail;
     name := name;
     message := match msg with VString s => s | _ => name end |}.

(** [this.toJson()] *)
Definition toJson (this : HttpError) : value :=
  let obj := [("status", VNumber (status this));
              ("error", VString (name this));
              ("message", msg this)] in
  VObject (if truthy (detail this)
           then (obj ++ [("detail", detail this)])%list
           else obj).

(** [HttpError.isHttpError(value)], i.e. [value instanceof HttpError]. *)
Definition isHttpError (v : value) : bool :=
  match v with VHttpError _ => true | _ => false end.

(** [value instanceof ApiRes] *)
Definition isApiRes (v : value) : bool :=
  match v with VApiRes _ => true | _ => false end.




Definition NotFoundError (message detail : value) : HttpError :=
  HttpError_new message (Some HttpStatus.NOT_FOUND) detail.




Definition InternalServerError (message detail : value) : HttpError :=
  HttpError_new message (Some HttpStatus.INTERNAL_SERVER_ERROR) detail.

(* ===================================================================== *)
(** ** The result normaliser: [handleResult] and [asyncHandler] *)
(* ===================================================================== *)

Definition handleResult (result : value) (res : Response) : M unit :=
  match result with
  | VApiRes r =>
      (* result instanceof ApiRes *)
      res_status (api_status r) ;; res_json (api_json r)
  | _ =>
      if (truthy result && negb (is_response result res))%bool
      then res_send result
      else ret tt
  end.

Definition asyncHandler (func : ReqHandler) : ReqHandler :=
  fun req res next =>
    catch
      (result <- func req res next ;;
       match result with
       | RPromise p =>
           (* result.then(value => handleResult(value, res)).catch(next) *)
           settled <- promise_then p (fun value => handleResult value res) ;;
           _ <- promise_catch settled next ;;
           ret (RValue VUndefined)
       | RValue v =>
           handleResult v res ;;
           ret (RValue VUndefined)
       end)
      (fun error => next error ;; ret (RValue VUndefined)).

(* ===================================================================== *)
(** ** [globalErrorHandler] *)
(* ===================================================================== *)

(** [ErrorOptions]: both fields are optional. *)
Record ErrorOptions : Type := mkOptions
  { isDev : option bool;
    write : option (value -> M unit) }.

Definition ErrorRequestHandler : Type :=
  value -> Request -> Response -> NextFunction -> M value.

Definition globalErrorHandler (options : option ErrorOptions)
  : ErrorRequestHandler :=
  let options :=
    match options with
    | Some o => o
    | None => {| isDev := None; write := None |}
    end in
  let isDev := match isDev options with Some b => b | None => true end in
  let write := write options in
  fun err req res next =>
    match err with
    | VHttpError e =>
        res_status (status e) ;;
        res_json (toJson e) ;;
        ret (VResponse res)
    | _ =>
        optional_call write err ;;
        m <- (if isDev then get err "message"
              else ret (VString "Something went wrong")) ;;
        d <- (if isDev then get err "stack" else ret VNull) ;;
        let error := InternalServerError m d in
        res_status (status error) ;;
        res_json (toJson error) ;;
        ret (VResponse res)
    end.

(* ===================================================================== *)
(** ** [proxyWrapper] *)
(* ===================================================================== *)

Module Proxy.

(** The data properties of an object. *)
Definition Fields : Type := list (string * value).

(** A function-valued property, as a function of the object it is called
    on ([this]). *)
Definition Method : Type := Fields -> ReqHandler.

(** An object: its data properties and its function-valued properties
    (own or inherited).  Accessor properties are not modelled. *)
Record Instance : Type := mkInstance
  { fields : Fields;
    methods : list (string * Method) }.

(** [new cls(...args)]: the constructor returns the new object or
    throws. *)
Definition Constructor : Type := list value -> completion Instance.

(** The first argument of [proxyWrapper]: [typeof clsOrInstance] is
    ['function'] for a class and ['object'] for an instance. *)
Inductive ClsOrInstance : Type :=
| Cls (cls : Constructor)
| Inst (instance : Instance).

Fixpoint lookup_method (key : string) (ms : list (string * Method))
  : option Method :=
  match ms with
  | [] => None
  | (k, f) :: rest => if String.eqb k key then Some f else lookup_method key rest
  end.

(** What a property read gives: a plain value, or a function. *)
Inductive Property (F : Type) : Type :=
| PValue (v : value)
| PFunction (f : F).

Arguments PValue {F} _.
Arguments PFunction {F} _.

(** [Reflect.get(target, prop, receiver)] *)
Definition Reflect_get (target : Instance) (prop : string) : Property Method :=
  match lookup_prop prop (fields target) with
  | Some v => PValue v
  | None =>
      match lookup_method prop (methods target) with
      | Some f => PFunction f
      | None => PValue VUndefined
      end
  end.

(** [value.bind(target)] *)
Definition bind_this (f : Method) (target : Instance) : ReqHandler :=
  f (fields target).

(** The [get] trap. *)
Definition get_trap (target : Instance) (prop : string) : Property ReqHandler :=
  match Reflect_get target prop with
  | PFunction value => PFunction (asyncHandler (bind_this value target))
  | PValue value => PValue value
  end.

Definition override_message : string :=
  "Overriding methods and properties is not allowed.".

(** The [set] trap; the target is threaded through so that its state
    after the call can be inspected. *)
Definition set_trap (target : Instance) (prop : string) (v : value)
  : completion unit * Instance :=
  (Throw (Error_new override_message), target).

(** Ordinary assignment [obj[prop] = v] on an object that is not behind
    a proxy: the data property is added or replaced. *)
Fixpoint assign_field (prop : string) (v : value) (fs : Fields) : Fields :=
  match fs with
  | [] => [(prop, v)]
  | (k, old) :: rest =>
      if String.eqb k prop then (k, v) :: rest
      else (k, old) :: assign_field prop v rest
  end.

Definition assign (obj : Instance) (prop : string) (v : value)
  : completion unit * Instance :=
  (Normal tt, {| fields := assign_field prop v (fields obj);
                 methods := methods obj |}).

(** The proxied view: [new Proxy(instance, { get, set })]. *)
Record View : Type := mkView { target : Instance }.

Definition proxyWrapper (clsOrInstance : ClsOrInstance) (args : list value)
  : completion View :=
  match clsOrInstance with
  | Cls cls =>
      match cls args with
      | Normal instance => Normal {| target := instance |}
      | Throw e => Throw e
      end
  | Inst instance => Normal {| target := instance |}
  end.

(** [view[prop]] *)
Definition read (view : View) (prop : string) : Property ReqHandler :=
  get_trap (target view) prop.

(** [view[prop] = v] *)
Definition write (view : View) (prop : string) (v : value)
  : completion unit * View :=
  let (c, target') := set_trap (target view) prop v in
  (c, {| target := target' |}).

(** The controller of the documented usage, with a method that answers
    with the message given to the constructor:
    [class ExampleController {
       constructor(private message: string) {}
       async getData(req) { return this.message; } }]. *)
Definition ExampleController : Constructor :=
  fun args =>
    Normal {| fields := [("message", nth 0 args VUndefined)];
              methods :=
                [("getData",
                  fun this _ _ _ =>
                    ret (RPromise (Fulfilled (property (VObject this) "message"))))] |}.

End Proxy.

(* ===================================================================== *)
(** ** Vocabulary of the specification *)
(* ===================================================================== *)

(** The three outcomes of one invocation of a wrapped handler. *)
Inductive outcome : Type :=
| ResponseWritten
| ErrorForwarded
| NoOp.




(** The calls [handleResult] makes for a result [V]. *)
Definition handleResult_calls (V : value) (res : Response) : trace :=
  match V with
  | VApiRes r => [ResStatus (api_status r); ResJson (api_json r)]
  | _ => if (truthy V && negb (is_response V res))%bool then [ResSend V] else []
  end.

(** The calls the wrapper adds once the wrapped function has completed
    with [c] (a pending promise never settles, so nothing is added). *)
Definition wrapper_calls (c : completion result) (res : Response) : trace :=
  match c with
  | Throw error => [NextCalled error]
  | Normal (RValue v) => handleResult_calls v res
  | Normal (RPromise (Fulfilled v)) => handleResult_calls v res
  | Normal (RPromise (Rejected reason)) => [NextCalled reason]
  | Normal (RPromise Pending) => []
  end.

(** The wrapped function returns [V], or returns a promise that resolves
    to [V]; [t1] is the trace once it has done so. *)
Definition yields (func : ReqHandler) (req : Request) (res : Response)
           (next : NextFunction) (t : trace) (V : value) (t1 : trace) : Prop :=
  run (func req res next) t = (Normal (RValue V), t1) \/
  run (func req res next) t = (Normal (RPromise (Fulfilled V)), t1).

(** The two readings of "the display message of an error": the [message]
    property the instance inherits from [Error], and the [message] entry
    of its wire body. *)
Definition error_message (e : HttpError) : value := VString (message e).

Definition wire_message (e : HttpError) : value :=
  match field "message" (toJson e) with
  | Some m => m
  | None => VUndefined
  end.

(** The sentence about display messages, for a given reading [display]. *)
Definition display_message_claim (display : HttpError -> value) : Prop :=
  (forall (m : string) s d,
      display (HttpError_new (VString m) s d) = VString m) /\
  (forall (l : list string) s d,
      display (HttpError_new (VArray (map VString l)) s d)
      = VArray (map VString l)) /\
  (forall s d,
      display (HttpError_new VUndefined s d)
      = VString (name (HttpError_new VUndefined s d))).

(** The declared type of the [detail] parameter, [detail?: object]: absent
    ([undefined], or [null] as passed by [globalErrorHandler]) or an
    object. *)
Definition detail_param (d : value) : Prop :=
  is_nullish d = true \/ is_object d = true.

(* ===================================================================== *)
(** ** Further parts of the sources *)
(* ===================================================================== *)

(** The numeric entries of [HttpStatus], in source order: property read
    [HttpStatus[name]] for a symbolic name. *)
Definition HttpStatus_CODES : list (string * Z) :=
  [
    ("CONTINUE", HttpStatus.CONTINUE);
    ("SWITCHING_PROTOCOLS", HttpStatus.SWITCHING_PROTOCOLS);
    ("PROCESSING", HttpStatus.PROCESSING);
    ("EARLYHINTS", HttpStatus.EARLYHINTS);
    ("OK", HttpStatus.OK);
    ("CREATED", HttpStatus.CREATED);
    ("ACCEPTED", HttpStatus.ACCEPTED);
    ("NON_AUTHORITATIVE_INFORMATION", HttpStatus.NON_AUTHORITATIVE_INFORMATION);
    ("NO_CONTENT", HttpStatus.NO_CONTENT);
    ("RESET_CONTENT", HttpStatus.RESET_CONTENT);
    ("PARTIAL_CONTENT", HttpStatus.PARTIAL_CONTENT);
    ("AMBIGUOUS", HttpStatus.AMBIGUOUS);
    ("MOVED_PERMANENTLY", HttpStatus.MOVED_PERMANENTLY);
    ("FOUND", HttpStatus.FOUND);
    ("SEE_OTHER", HttpStatus.SEE_OTHER);
    ("NOT_MODIFIED", HttpStatus.NOT_MODIFIED);
    ("TEMPORARY_REDIRECT", HttpStatus.TEMPORARY_REDIRECT);
    ("PERMANENT_REDIRECT", HttpStatus.PERMANENT_REDIRECT);
    ("BAD_REQUEST", HttpStatus.BAD_REQUEST);
    ("UNAUTHORIZED", HttpStatus.UNAUTHORIZED);
    ("PAYMENT_REQUIRED", HttpStatus.PAYMENT_REQUIRED);
    ("FORBIDDEN", HttpStatus.FORBIDDEN);
    ("NOT_FOUND", HttpStatus.NOT_FOUND);
    ("METHOD_NOT_ALLOWED", HttpStatus.METHOD_NOT_ALLOWED);
    ("NOT_ACCEPTABLE", HttpStatus.NOT_ACCEPTABLE);
    ("PROXY_AUTHENTICATION_REQUIRED", HttpStatus.PROXY_AUTHENTICATION_REQUIRED);
    ("REQUEST_TIMEOUT", HttpStatus.REQUEST_TIMEOUT);
    ("CONFLICT", HttpStatus.CONFLICT);
    ("GONE", HttpStatus.GONE);
    ("LENGTH_REQUIRED", HttpStatus.LENGTH_REQUIRED);
    ("PRECONDITION_FAILED", HttpStatus.PRECONDITION_FAILED);
    ("PAYLOAD_TOO_LARGE", HttpStatus.PAYLOAD_TOO_LARGE);
    ("URI_TOO_LONG", HttpStatus.URI_TOO_LONG);
    ("UNSUPPORTED_MEDIA_TYPE", HttpStatus.UNSUPPORTED_MEDIA_TYPE);
    ("REQUESTED_RANGE_NOT_SATISFIABLE", HttpStatus.REQUESTED_RANGE_NOT_SATISFIABLE);
    ("EXPECTATION_FAILED", HttpStatus.EXPECTATION_FAILED);
    ("I_AM_A_TEAPOT", HttpStatus.I_AM_A_TEAPOT);
    ("MISDIRECTED", HttpStatus.MISDIRECTED);
    ("UNPROCESSABLE_ENTITY", HttpStatus.UNPROCESSABLE_ENTITY);
    ("FAILED_DEPENDENCY", HttpStatus.FAILED_DEPENDENCY);
    ("PRECONDITION_REQUIRED", HttpStatus.PRECONDITION_REQUIRED);
    ("TOO_MANY_REQUESTS", HttpStatus.TOO_MANY_REQUESTS);
    ("INTERNAL_SERVER_ERROR", HttpStatus.INTERNAL_SERVER_ERROR);
    ("NOT_IMPLEMENTED", HttpStatus.NOT_IMPLEMENTED);
    ("BAD_GATEWAY", HttpStatus.BAD_GATEWAY);
    ("SERVICE_UNAVAILABLE", HttpStatus.SERVICE_UNAVAILABLE);
    ("GATEWAY_TIMEOUT", HttpStatus.GATEWAY_TIMEOUT);
    ("HTTP_VERSION_NOT_SUPPORTED", HttpStatus.HTTP_VERSION_NOT_SUPPORTED);
    ("VARIANT_ALSO_NEGOTIATES", HttpStatus.VARIANT_ALSO_NEGOTIATES);
    ("INSUFFICIENT_STORAGE", HttpStatus.INSUFFICIENT_STORAGE);
    ("LOOP_DETECTED", HttpStatus.LOOP_DETECTED);
    ("BANDWIDTH_LIMIT_EXCEEDED", HttpStatus.BANDWIDTH_LIMIT_EXCEEDED);
    ("NOT_EXTENDED", HttpStatus.NOT_EXTENDED);
    ("NETWORK_AUTHENTICATION_REQUIRED", HttpStatus.NETWORK_AUTHENTICATION_REQUIRED)
  ].

Fixpoint code_of_in (key : string) (tbl : list (string * Z)) : option Z :=
  match tbl with
  | [] => None
  | (k, v) :: rest => if String.eqb k key then Some v else code_of_in key rest
  end.

(** [HttpStatus[name]] on the numeric entries. *)
Definition code_of (name : string) : option Z := code_of_in name HttpStatus_CODES.

(** The integers from 100 to 511 and from 400 to 511. *)
Definition status_codes : list Z := map Z.of_nat (seq 100 412).
Definition error_codes : list Z := map Z.of_nat (seq 400 112).

Definition is_letter (c : ascii) : bool := (Str.is_upper c || Str.is_lower c)%bool.
Definition is_alnum (c : ascii) : bool := (is_letter c || Str.is_digit c)%bool.

(** [getHandlerFromClass(cls, ...args)]: the instance is built at once; the
    function handed back looks a method up by its key and wraps it.  In the
    message, [cls.constructor] is the constructor of the class object
    itself, that is [Function]. *)
Definition getHandlerFromClass (cls : Proxy.Constructor) (args : list value)
  : completion (string -> completion ReqHandler) :=
  match cls args with
  | Throw e => Throw e
  | Normal instance =>
      Normal (fun key =>
        match Proxy.Reflect_get instance key with
        | Proxy.PFunction handler =>
            Normal (asyncHandler (Proxy.bind_this handler instance))
        | Proxy.PValue _ =>
            Throw (Error_new ("The key '" ++ key
                              ++ "' is not a function in Function."))
        end)
  end.

(** [serveStatic]: static files with a fallback to [index.html]. *)
Module Static.

(** [options.exclude]: one pattern or an array of patterns. *)
Inductive Exclude : Type :=
| Pattern (pattern : string)
| Patterns (patterns : list string).

Record ServeOptions : Type := mkServeOptions
  { exclude : option Exclude;
    path : option string }.

(** The call [renderIndex] makes: [res.sendFile(file)] or [next()]. *)
Inductive call : Type :=
| SendFile (file : string)
| Next.

(** The router handed back: [express.static(root, {index: false})]
    followed by [renderIndex] on every GET request that reaches it. *)
Record Router : Type := mkRouter
  { static_root : string;
    renderIndex : string -> list call }.

Section ServeStatic.

(** Supplied by the platform: [match(pattern, {end: false})] of
    path-to-regexp, which builds a matcher or throws on a malformed
    pattern (the matcher answers a match object or [false], kept here as a
    truth value); [path.join]; [process.cwd()]; and the construction of
    the router by the host,
    [express.Router().use(express.static(root, {index: false})).get('*', renderIndex)],
    which returns or throws ([express.static] rejects an empty root). *)
Variable pathMatch : string -> completion (string -> bool).
Variable join : string -> string -> string.
Variable cwd : string.
Variable expressRouter : string -> completion unit.

(** [excludes.map(pattern => match(pattern, {end: false}))] *)
Fixpoint compile (excludes : list string) : completion (list (string -> bool)) :=
  match excludes with
  | [] => Normal []
  | pattern :: rest =>
      match pathMatch pattern with
      | Throw e => Throw e
      | Normal matcher =>
          match compile rest with
          | Throw e => Throw e
          | Normal matchers => Normal (matcher :: matchers)
          end
      end
  end.

(** [excludeMatchers.some(matcher => matcher(pathname))] *)
Definition isExcluded (excludeMatchers : list (string -> bool))
           (pathname : string) : bool :=
  existsb (fun matcher => matcher pathname) excludeMatchers.

(** [originalUrl.split('?')[0]] *)
Definition pathname_of (originalUrl : string) : string :=
  hd "" (Str.split_on "?" originalUrl).

Definition serveStatic (options : option ServeOptions) : completion Router :=
  let options :=
    match options with
    | Some o => o
    | None => {| exclude := None; path := None |}
    end in
  let exclude :=
    match exclude options with
    | Some e => e
    | None => Pattern "/api{/*path}"
    end in
  let path :=
    match path options with
    | Some p => p
    | None => join cwd "public"
    end in
  let excludes :=
    match exclude with
    | Patterns ps => ps
    | Pattern p => [p]
    end in
  let indexFile := join path "index.html" in
  match compile excludes with
  | Throw e => Throw e
  | Normal excludeMatchers =>
      match expressRouter path with
      | Throw e => Throw e
      | Normal _ =>
          Normal {| static_root := path;
                    renderIndex := fun originalUrl =>
                      if isExcluded excludeMatchers (pathname_of originalUrl)
                      then [Next]
                      else [SendFile indexFile] |}
      end
  end.

(** The directory served for given options. *)
Definition root_of (options : option ServeOptions) : string :=
  match options with
  | Some {| path := Some p |} => p
  | _ => join cwd "public"
  end.

(** The patterns in force for given options. *)
Definition excludes_of (options : option ServeOptions) : list string :=
  match options with
  | Some {| exclude := Some (Patterns ps) |} => ps
  | Some {| exclude := Some (Pattern p) |} => [p]
  | _ => ["/api{/*path}"]
  end.

End ServeStatic.

End Static.

(* ===================================================================== *)
(** * Properties *)
(* ===================================================================== *)

(** ** The naming pipeline against the PascalCase rule *)

Section FormatName.

Ltac by_cases_on_char c :=
  destruct c as [[] [] [] [] [] [] [] []]; vm_compute; intuition congruence.

Lemma underscore_char_facts :
  Str.lower_char "_" = "_"%char /\
  Str.is_word " " = false /\ Str.is_space " " = true.
Proof. vm_compute. auto. Qed.

Lemma word_char_facts (c : ascii) :
  Str.is_word c = true -> Ascii.eqb c "_" = false ->
  let c' := Str.lower_char c in
  Ascii.eqb c' "_" = false /\
  Str.is_word c' = true /\
  Str.is_space c' = false /\
  Str.is_space (Str.upper_char c') = false /\
  Str.upper_char c' = Str.upper_char c.
Proof. by_cases_on_char c. Qed.

Lemma append_empty_r (s : string) : (s ++ "")%string = s.
Proof. induction s as [|c r IH]; simpl; [reflexivity | now rewrite IH]. Qed.

Lemma concat_empty_cons (x : string) (xs : list string) :
  String.concat "" (x :: xs) = (x ++ String.concat "" xs)%string.
Proof.
  destruct xs as [|y ys]; simpl.
  - now rewrite append_empty_r.
  - reflexivity.
Qed.

Lemma split_on_not_nil (sep : ascii) (s : string) : Str.split_on sep s <> [].
Proof.
  destruct s as [|c r]; simpl; [discriminate|].
  destruct (Ascii.eqb c sep); [discriminate|].
  destruct (Str.split_on sep r); discriminate.
Qed.

Lemma pipeline_cons (prev : bool) (c : ascii) (r : string) :
  NameSpec.pipeline prev (String c r) =
  let c1 := Str.lower_char c in
  let c2 := if Ascii.eqb c1 "_" then " "%char else c1 in
  let c3 := if (Str.is_word c2 && negb prev)%bool then Str.upper_char c2 else c2 in
  if Str.is_space c3 then NameSpec.pipeline (Str.is_word c2) r
  else String c3 (NameSpec.pipeline (Str.is_word c2) r).
Proof. reflexivity. Qed.

Lemma wordwise_separator (prev : bool) (r : string) :
  NameSpec.wordwise prev (String "_" r) = NameSpec.wordwise false r.
Proof.
  unfold NameSpec.wordwise.
  change (Str.split_on "_" (String "_" r)) with ("" :: Str.split_on "_" r).
  destruct (Str.split_on "_" r) as [|w ws] eqn:Es.
  - now apply split_on_not_nil in Es.
  - cbn [map]. rewrite concat_empty_cons. now destruct prev.
Qed.

Lemma wordwise_letter (prev : bool) (c : ascii) (r : string) :
  Ascii.eqb c "_" = false ->
  NameSpec.wordwise prev (String c r) =
  String (if prev then Str.lower_char c else Str.upper_char c) (NameSpec.wordwise true r).
Proof.
  intros Eu. unfold NameSpec.wordwise. simpl. rewrite Eu.
  destruct (Str.split_on "_" r) as [|w ws] eqn:Es.
  - now apply split_on_not_nil in Es.
  - now destruct prev.
Qed.

Lemma pipeline_wordwise (s : string) :
  Str.all_chars Str.is_word s = true ->
  forall prev, NameSpec.pipeline prev s = NameSpec.wordwise prev s.
Proof.
  induction s as [|c r IH]; intros Hall prev.
  - destruct prev; reflexivity.
  - simpl in Hall. apply andb_true_iff in Hall as [Hc Hr].
    specialize (IH Hr).
    rewrite pipeline_cons.
    destruct (Ascii.eqb c "_") eqn:Eu.
    + apply Ascii.eqb_eq in Eu. subst c.
      rewrite wordwise_separator, <- IH. reflexivity.
    + destruct (word_char_facts c Hc Eu) as (E1 & E2 & E3 & E4 & E5).
      rewrite (wordwise_letter prev c r Eu), <- IH.
      cbv zeta. rewrite E1, E2.
      destruct prev; simpl.
      * now rewrite E3.
      * now rewrite E4, E5.
Qed.

(** On names made of letters, digits and underscores, the chain of
    replacements of [getErrorName] is PascalCase. *)
Lemma formatName_pascal_case (key : string) :
  Str.all_chars Str.is_word key = true ->
  formatName key = NameSpec.pascal_case key.
Proof.
  intros Hall.
  change (formatName key) with (NameSpec.pipeline false key).
  rewrite (pipeline_wordwise key Hall false).
  unfold NameSpec.wordwise, NameSpec.pascal_case.
  destruct (Str.split_on "_" key) as [|w ws] eqn:Es.
  - now apply split_on_not_nil in Es.
  - simpl map. now rewrite concat_empty_cons.
Qed.

End FormatName.

(** ** [getErrorName] *)

Lemma lookup_In (key : string) (tbl : list (string * string)) (v : string) :
  HttpStatus.lookup key tbl = Some v -> In (key, v) tbl.
Proof.
  induction tbl as [|[k w] rest IH]; simpl; [discriminate|].
  destruct (String.eqb_spec k key) as [->|_].
  - intros [= ->]. now left.
  - intros H. right. now apply IH.
Qed.

(** Every symbolic name of the table is a non-empty word of letters,
    digits and underscores. *)
Lemma NAMES_wellformed (k v : string) :
  In (k, v) HttpStatus.NAMES ->
  Str.all_chars Str.is_word v = true /\ v <> "".
Proof.
  intros Hin.
  assert (Hall : forallb (fun kv : string * string =>
                            (Str.all_chars Str.is_word (snd kv)
                             && negb (String.eqb (snd kv) ""))%bool)
                         HttpStatus.NAMES = true) by (vm_compute; reflexivity).
  rewrite forallb_forall in Hall. specialize (Hall _ Hin). simpl in Hall.
  apply andb_true_iff in Hall as [Hw Hne]. split; [exact Hw|].
  intros ->. discriminate.
Qed.

Lemma getErrorName_out_of_range (c : Z) :
  c < 400 \/ 511 < c -> getErrorName c = "HttpError".
Proof.
  intros H. unfold getErrorName.
  destruct (Z.ltb_spec c 400); [reflexivity|].
  destruct (Z.gtb_spec c 511); [reflexivity|lia].
Qed.

Lemma getErrorName_in_range (c : Z) :
  400 <= c <= 511 ->
  getErrorName c =
  match HttpStatus.name_of c with
  | None => "HttpError"
  | Some EmptyString => "HttpError"
  | Some statusKey => NameSpec.with_error_suffix (formatName statusKey)
  end.
Proof.
  intros H. unfold getErrorName.
  destruct (Z.ltb_spec c 400); [lia|].
  destruct (Z.gtb_spec c 511); [lia|].
  reflexivity.
Qed.

(** C4 (as amended): [getErrorName] is a total function of the integer
    status; for a code inside [400, 511] that the status table registers,
    the result is the table's symbolic name in PascalCase with ["Error"]
    appended unless the name already ends with it; for every code outside
    [400, 511] (registered or not) and for every unregistered code the
    result is exactly ["HttpError"]. *)
Theorem getErrorName_spec (c : Z) :
  (forall key, 400 <= c <= 511 -> HttpStatus.name_of c = Some key ->
               getErrorName c = NameSpec.error_name key) /\
  (c < 400 \/ 511 < c \/ HttpStatus.name_of c = None ->
   getErrorName c = "HttpError").
Proof.
  split.
  - intros key Hrange Hname.
    rewrite (getErrorName_in_range c Hrange), Hname.
    apply lookup_In, NAMES_wellformed in Hname as [Hword Hne].
    destruct key as [|a k]; [contradiction|].
    unfold NameSpec.error_name.
    now rewrite (formatName_pascal_case _ Hword).
  - intros [Hlo | [Hhi | Hnone]].
    + apply getErrorName_out_of_range. now left.
    + apply getErrorName_out_of_range. now right.
    + destruct (Z.ltb_spec c 400) as [Hlt|Hge];
        [apply getErrorName_out_of_range; now left|].
      destruct (Z.ltb_spec 511 c) as [Hgt|Hle];
        [apply getErrorName_out_of_range; now right|].
      rewrite getErrorName_in_range by lia. now rewrite Hnone.
Qed.

Lemma getErrorName_spec_witness :
  getErrorName 404 = "NotFoundError" /\
  getErrorName 500 = "InternalServerError" /\
  getErrorName 200 = "HttpError" /\
  getErrorName 420 = "HttpError".
Proof.
  split; [|split; [|split]].
  - apply (proj1 (getErrorName_spec 404) "NOT_FOUND"); [lia | reflexivity].
  - apply (proj1 (getErrorName_spec 500) "INTERNAL_SERVER_ERROR");
      [lia | reflexivity].
  - apply (proj2 (getErrorName_spec 200)). left. lia.
  - apply (proj2 (getErrorName_spec 420)). right. right. reflexivity.
Defined.

(** C4 (as stated) fails: 200 is registered in the table (as ["OK"]), yet
    the range guard answers ["HttpError"] and not ["OkError"]. *)
Lemma getErrorName_registered_counterexample :
  ~ (forall c key, HttpStatus.name_of c = Some key ->
                   getErrorName c = NameSpec.error_name key).
Proof.
  intros H. specialize (H 200 "OK" eq_refl). vm_compute in H. discriminate H.
Qed.

(** ** [HttpError]: construction and wire body *)

Lemma HttpError_new_name (m : value) (s : option Z) (d : value) :
  name (HttpError_new m s d) = getErrorName (status (HttpError_new m s d)).
Proof. reflexivity. Qed.

Lemma HttpError_new_default_status (m d : value) :
  status (HttpError_new m None d) = 500.
Proof. reflexivity. Qed.

Lemma toJson_fields (e : HttpError) :
  field "status" (toJson e) = Some (VNumber (status e)) /\
  field "error" (toJson e) = Some (VString (name e)) /\
  field "message" (toJson e) = Some (msg e).
Proof. unfold toJson. destruct (truthy (detail e)); repeat split. Qed.

(** The [detail] entry is governed by the truthiness test of [toJson]. *)
Lemma toJson_detail (e : HttpError) :
  has_key "detail" (toJson e) = truthy (detail e) /\
  (truthy (detail e) = true -> field "detail" (toJson e) = Some (detail e)).
Proof. unfold toJson. destruct (truthy (detail e)); split; easy. Qed.

(** Without a [detail], the body has exactly three entries. *)
Lemma toJson_without_detail (e : HttpError) :
  truthy (detail e) = false ->
  toJson e = VObject [("status", VNumber (status e));
                      ("error", VString (name e));
                      ("message", msg e)].
Proof. intros H. unfold toJson. now rewrite H. Qed.

(** For the values admitted by [detail?: object], "truthy" and "not null"
    coincide. *)
Lemma detail_param_truthy (d : value) :
  detail_param d -> truthy d = negb (is_nullish d).
Proof. intros [H|H]; destruct d; simpl in *; congruence. Qed.

(** C5 (as amended): for every message, status and detail, the wire
    body of [HttpError(msg, s, d)] has a [status] entry equal to [s] and
    an [error] entry equal to [getErrorName s]; its [detail] key is
    present if and only if the detail passed to the constructor is
    truthy, in which case it carries that detail.  So an absent or null
    detail is omitted, and so is a falsy one such as the empty string or
    zero; every object is kept. *)
Theorem HttpError_toJson_truthy_detail (m : value) (s : Z) (d : value) :
  let body := toJson (HttpError_new m (Some s) d) in
  field "status" body = Some (VNumber s) /\
  field "error" body = Some (VString (getErrorName s)) /\
  (has_key "detail" body = true <-> truthy d = true) /\
  field "detail" body = (if truthy d then Some d else None) /\
  (is_nullish d = true -> has_key "detail" body = false) /\
  (is_object d = true -> field "detail" body = Some d).
Proof.
  intros body. subst body.
  destruct (toJson_fields (HttpError_new m (Some s) d)) as (Hs & He & _).
  destruct (toJson_detail (HttpError_new m (Some s) d)) as (Hk & Hv).
  simpl status in *. simpl name in *. simpl detail in *.
  split; [exact Hs|]. split; [exact He|]. split; [now rewrite Hk|].
  split; [|split].
  - destruct (truthy d) eqn:Ht; [now apply Hv|].
    unfold toJson. simpl detail. now rewrite Ht.
  - intros Hn. rewrite Hk. now destruct d.
  - intros Ho. apply Hv. now destruct d.
Qed.

(** C5 (as stated) fails: the empty string is a detail that is not null,
    yet [toJson] leaves the [detail] key out, because it tests the
    truthiness of the detail ([globalErrorHandler] passes a string, the
    stack, as detail). *)
Lemma HttpError_toJson_detail_counterexample :
  ~ (forall (m : value) (s : Z) (d : value),
        has_key "detail" (toJson (HttpError_new m (Some s) d)) = true
        <-> is_nullish d = false).
Proof.
  intros H.
  destruct (H (VString "boom") 500 (VString "")) as [_ Hkey].
  specialize (Hkey eq_refl). vm_compute in Hkey. discriminate Hkey.
Qed.

(** On the declared type of the parameter, [detail?: object], "truthy"
    is "not null", which gives the round trip in its original form. *)
Lemma HttpError_toJson_round_trip (m : value) (s : Z) (d : value) :
  detail_param d ->
  let body := toJson (HttpError_new m (Some s) d) in
  field "status" body = Some (VNumber s) /\
  field "error" body = Some (VString (getErrorName s)) /\
  (has_key "detail" body = true <-> is_nullish d = false) /\
  (is_nullish d = false -> field "detail" body = Some d).
Proof.
  intros Hd body. subst body.
  destruct (toJson_fields (HttpError_new m (Some s) d)) as (Hs & He & _).
  destruct (toJson_detail (HttpError_new m (Some s) d)) as (Hk & Hv).
  simpl status in *. simpl name in *. simpl detail in *.
  rewrite (detail_param_truthy d Hd) in Hk, Hv.
  repeat split; try assumption.
  - rewrite Hk. now destruct (is_nullish d).
  - rewrite Hk. now intros ->.
  - intros Hn. apply Hv. now rewrite Hn.
Qed.

Lemma HttpError_toJson_truthy_detail_witness :
  let d := VObject [("id", VNumber 7)] in
  field "detail" (toJson (HttpError_new (VString "missing") (Some 404) d)) = Some d /\
  has_key "detail" (toJson (HttpError_new (VString "missing") (Some 404) VNull)) = false.
Proof.
  intros d. split.
  - apply (proj2 (proj2 (proj2 (proj2 (proj2
             (HttpError_toJson_truthy_detail (VString "missing") 404 d)))))).
    reflexivity.
  - apply (proj1 (proj2 (proj2 (proj2 (proj2
             (HttpError_toJson_truthy_detail (VString "missing") 404 VNull)))))).
    reflexivity.
Defined.

(** Scenario C: the wire body of [new NotFoundError('missing')]. *)
Example NotFoundError_wire_body :
  toJson (NotFoundError (VString "missing") VUndefined)
  = VObject [("status", VNumber 404);
             ("error", VString "NotFoundError");
             ("message", VString "missing")].
Proof. reflexivity. Qed.

(** C6 (as amended): when the message is a string, the [message] property
    of the error and the [message] entry of its wire body are both that
    string; when it is a list of strings, the wire body carries the list
    itself while the [message] property is the derived name; when no
    message is given, the [message] property is the derived name.  The
    derived name is [getErrorName] of the status. *)
Theorem HttpError_message_spec (s : option Z) (d : value) :
  (forall m : string,
      let e := HttpError_new (VString m) s d in
      error_message e = VString m /\ wire_message e = VString m) /\
  (forall l : list string,
      let e := HttpError_new (VArray (map VString l)) s d in
      wire_message e = VArray (map VString l) /\
      error_message e = VString (name e)) /\
  (let e := HttpError_new VUndefined s d in
   error_message e = VString (name e) /\
   name e = getErrorName (status e)).
Proof.
  repeat split; unfold wire_message;
    match goal with
    | |- context [toJson ?e] =>
        now rewrite (proj2 (proj2 (toJson_fields e)))
    end.
Qed.

(** C6 (as stated) fails under either reading of "display message": the
    [message] property of an error built from a list is the derived name,
    not the list; and the wire body of an error built without a message
    has an undefined [message], not the derived name. *)
Lemma display_message_counterexample :
  ~ display_message_claim error_message /\
  ~ display_message_claim wire_message.
Proof.
  split; intros (Hstr & Hlist & Hnone).
  - specialize (Hlist ["email is required"; "name is required"]
                      (Some 400) VUndefined).
    vm_compute in Hlist. discriminate Hlist.
  - specialize (Hnone (Some 400) VUndefined).
    vm_compute in Hnone. discriminate Hnone.
Qed.

(** ** Running computations *)

Lemma run_ret {A} (a : A) (t : trace) : run (ret a) t = (Normal a, t).
Proof. reflexivity. Qed.

Lemma run_bind {A B} (c : M A) (k : A -> M B) (t : trace) :
  run (bind c k) t =
  match run c t with
  | (Normal a, t') => run (k a) t'
  | (Throw e, t') => (Throw e, t')
  end.
Proof. reflexivity. Qed.

Lemma run_catch {A} (body : M A) (handler : value -> M A) (t : trace) :
  run (catch body handler) t =
  match run body t with
  | (Normal a, t') => (Normal a, t')
  | (Throw e, t') => run (handler e) t'
  end.
Proof. reflexivity. Qed.

Lemma run_emit (ev : event) (t : trace) :
  run (emit ev) t = (Normal tt, (t ++ [ev])%list).
Proof. reflexivity. Qed.

(** ** [handleResult] *)

Lemma handleResult_run (V : value) (res : Response) (t : trace) :
  run (handleResult V res) t = (Normal tt, (t ++ handleResult_calls V res)%list).
Proof.
  unfold handleResult, handleResult_calls.
  destruct V;
    try (destruct (truthy _ && negb (is_response _ res))%bool;
         [reflexivity | now rewrite app_nil_r]).
  unfold res_status, res_json. rewrite run_bind, !run_emit.
  now rewrite <- app_assoc.
Qed.

(** The three cases of [handleResult]. *)
Lemma handleResult_cases (V : value) (res : Response) :
  (forall r, V = VApiRes r ->
     handleResult_calls V res = [ResStatus (api_status r); ResJson (api_json r)]) /\
  (isApiRes V = false -> truthy V = true -> is_response V res = false ->
     handleResult_calls V res = [ResSend V]) /\
  (truthy V = false \/ is_response V res = true ->
     handleResult_calls V res = []).
Proof.
  split; [|split].
  - now intros r ->.
  - intros Ha Ht Hr. destruct V; try discriminate Ha;
      unfold handleResult_calls; now rewrite Ht, Hr.
  - intros Hor.
    destruct V; unfold handleResult_calls;
      destruct Hor as [Hf | Hres]; try discriminate;
      rewrite ?Hf, ?Hres, ?andb_false_r; reflexivity.
Qed.

(** ** [asyncHandler] *)

(** What one invocation of a wrapped handler does: the wrapped function
    runs, then the wrapper appends its own calls, and the wrapped handler
    itself returns [undefined]. *)
Lemma asyncHandler_run (func : ReqHandler) (req : Request) (res : Response)
      (t : trace) :
  run (asyncHandler func req res next_stage) t =
  (Normal (RValue VUndefined),
   (snd (run (func req res next_stage) t)
      ++ wrapper_calls (fst (run (func req res next_stage) t)) res)%list).
Proof.
  unfold asyncHandler. rewrite run_catch, run_bind.
  destruct (run (func req res next_stage) t) as [[r|e] t1]; cbn [fst snd].
  - destruct r as [v | [ | v | reason]].
    + rewrite run_bind, handleResult_run. reflexivity.
    + cbn. now rewrite app_nil_r.
    + rewrite run_bind. unfold promise_then.
      rewrite run_catch, run_bind, handleResult_run. reflexivity.
    + reflexivity.
  - reflexivity.
Qed.

(** A returned value and a resolved value take the same route. *)
Lemma asyncHandler_yields (func : ReqHandler) (req : Request) (res : Response)
      (next : NextFunction) (t t1 : trace) (V : value) :
  yields func req res next t V t1 ->
  run (asyncHandler func req res next) t
  = (Normal (RValue VUndefined), (t1 ++ handleResult_calls V res)%list).
Proof.
  intros [Hsync | Hasync]; unfold asyncHandler; rewrite run_catch, run_bind.
  - rewrite Hsync, run_bind, handleResult_run. reflexivity.
  - rewrite Hasync, run_bind. unfold promise_then.
    rewrite run_catch, run_bind, handleResult_run. reflexivity.
Qed.

(** C1: outcome classification of the value [V] returned, or resolved, by
    a wrapped handler.  If [V] is an [ApiRes], the response is written
    with its status code and its [toJson()] as JSON body; else if [V] is
    truthy and not the response object itself, [V] is sent as the body;
    else ([V] falsy, or the response object) nothing is written. *)
Theorem outcome_classification (func : ReqHandler) (req : Request)
        (res : Response) (next : NextFunction) (t t1 : trace) (V : value) :
  yields func req res next t V t1 ->
  let wrapped := run (asyncHandler func req res next) t in
  (forall r, V = VApiRes r ->
     wrapped = (Normal (RValue VUndefined),
                (t1 ++ [ResStatus (api_status r); ResJson (api_json r)])%list)) /\
  (isApiRes V = false -> truthy V = true -> is_response V res = false ->
     wrapped = (Normal (RValue VUndefined), (t1 ++ [ResSend V])%list)) /\
  (truthy V = false \/ is_response V res = true ->
     wrapped = (Normal (RValue VUndefined), t1)).
Proof.
  intros Hy wrapped. subst wrapped.
  rewrite (asyncHandler_yields func req res next t t1 V Hy).
  destruct (handleResult_cases V res) as (Hapi & Hsend & Hnone).
  split; [|split].
  - intros r HV. now rewrite (Hapi r HV).
  - intros Ha Ht Hr. now rewrite (Hsend Ha Ht Hr).
  - intros Hor. now rewrite (Hnone Hor), app_nil_r.
Qed.

Lemma outcome_classification_witness :
  let created := VApiRes (mkApiRes 201 (VObject [("id", VNumber 1)])) in
  let hi := VObject [("message", VString "hi")] in
  run (asyncHandler (fun _ _ _ => ret (RValue created)) VNull 0%nat next_stage) []
  = (Normal (RValue VUndefined),
     [ResStatus 201; ResJson (VObject [("id", VNumber 1)])]) /\
  run (asyncHandler (fun _ _ _ => ret (RPromise (Fulfilled hi)))
                    VNull 0%nat next_stage) []
  = (Normal (RValue VUndefined), [ResSend hi]) /\
  run (asyncHandler (fun _ _ _ => ret (RValue VUndefined)) VNull 0%nat next_stage) []
  = (Normal (RValue VUndefined), []) /\
  run (asyncHandler (fun _ res _ => res_send (VString "done") ;;
                                    ret (RValue (VResponse res)))
                    VNull 0%nat next_stage) []
  = (Normal (RValue VUndefined), [ResSend (VString "done")]).
Proof.
  intros created hi. split; [|split; [|split]].
  - refine (proj1 (outcome_classification
                     (fun _ _ _ => ret (RValue created))
                     VNull 0%nat next_stage [] [] created _)
                  (mkApiRes 201 (VObject [("id", VNumber 1)])) _);
      [left; reflexivity | reflexivity].
  - refine (proj1 (proj2 (outcome_classification
                            (fun _ _ _ => ret (RPromise (Fulfilled hi)))
                            VNull 0%nat next_stage [] [] hi _)) _ _ _);
      [right; reflexivity | reflexivity ..].
  - refine (proj2 (proj2 (outcome_classification
                            (fun _ _ _ => ret (RValue VUndefined))
                            VNull 0%nat next_stage [] [] VUndefined _)) _);
      [left; reflexivity | left; reflexivity].
  - refine (proj2 (proj2 (outcome_classification
                            (fun _ res _ => res_send (VString "done") ;;
                                            ret (RValue (VResponse res)))
                            VNull 0%nat next_stage []
                            [ResSend (VString "done")] (VResponse 0) _)) _);
      [left; reflexivity | right; reflexivity].
Defined.




(** The routing behind the single outcome: a synchronous throw and a
    rejection are forwarded to [next] and nothing is written. *)
Lemma asyncHandler_throw (func : ReqHandler) req res t error t1 :
  run (func req res next_stage) t = (Throw error, t1) ->
  run (asyncHandler func req res next_stage) t
  = (Normal (RValue VUndefined), (t1 ++ [NextCalled error])%list).
Proof. intros H. now rewrite asyncHandler_run, H. Qed.

Lemma asyncHandler_reject (func : ReqHandler) req res t reason t1 :
  run (func req res next_stage) t = (Normal (RPromise (Rejected reason)), t1) ->
  run (asyncHandler func req res next_stage) t
  = (Normal (RValue VUndefined), (t1 ++ [NextCalled reason])%list).
Proof. intros H. now rewrite asyncHandler_run, H. Qed.

Lemma asyncHandler_pending (func : ReqHandler) req res t t1 :
  run (func req res next_stage) t = (Normal (RPromise Pending), t1) ->
  run (asyncHandler func req res next_stage) t = (Normal (RValue VUndefined), t1).
Proof. intros H. rewrite asyncHandler_run, H. cbn. now rewrite app_nil_r. Qed.

(** C3: a handler that returns [V] and a handler that returns a promise
    resolving to [V] (the two making the same calls of their own) give,
    once wrapped, the same completion and the same calls on the host:
    those of the classification of [V]. *)
Theorem asyncHandler_sync_async (V : value) (fsync fasync : ReqHandler)
        (req : Request) (res : Response) (next : NextFunction)
        (t t1 : trace) :
  run (fsync req res next) t = (Normal (RValue V), t1) ->
  run (fasync req res next) t = (Normal (RPromise (Fulfilled V)), t1) ->
  run (asyncHandler fsync req res next) t
  = run (asyncHandler fasync req res next) t /\
  run (asyncHandler fasync req res next) t
  = (Normal (RValue VUndefined), (t1 ++ handleResult_calls V res)%list).
Proof.
  intros Hs Ha.
  rewrite (asyncHandler_yields fsync req res next t t1 V (or_introl Hs)).
  rewrite (asyncHandler_yields fasync req res next t t1 V (or_intror Ha)).
  split; reflexivity.
Qed.

Lemma asyncHandler_sync_async_witness :
  let V := VObject [("message", VString "hi")] in
  let fsync : ReqHandler := fun _ _ _ => ret (RValue V) in
  let fasync : ReqHandler := fun _ _ _ => ret (RPromise (Fulfilled V)) in
  run (asyncHandler fsync VNull 0%nat next_stage) []
  = run (asyncHandler fasync VNull 0%nat next_stage) [] /\
  run (asyncHandler fasync VNull 0%nat next_stage) []
  = (Normal (RValue VUndefined), [ResSend V]).
Proof.
  intros V fsync fasync.
  apply (asyncHandler_sync_async V fsync fasync VNull 0%nat next_stage [] []);
    reflexivity.
Defined.

(** Scenario A: a structured result with status 201. *)
Example scenario_structured_result :
  run (asyncHandler
         (fun _ _ _ => ret (RPromise (Fulfilled
            (VApiRes (mkApiRes 201 (VObject [("id", VNumber 1)]))))))
         VNull 0%nat next_stage) []
  = (Normal (RValue VUndefined),
     [ResStatus 201; ResJson (VObject [("id", VNumber 1)])]).
Proof. reflexivity. Qed.

(** A handler that throws a classified error: it is forwarded untouched. *)
Example scenario_throw_forwarded :
  run (asyncHandler
         (fun _ _ _ => raise (VHttpError (NotFoundError (VString "missing") VUndefined)))
         VNull 0%nat next_stage) []
  = (Normal (RValue VUndefined),
     [NextCalled (VHttpError (NotFoundError (VString "missing") VUndefined))]).
Proof. reflexivity. Qed.

(** ** [globalErrorHandler] *)

Lemma run_get (obj : value) (key : string) (t : trace) :
  is_nullish obj = false -> run (get obj key) t = (Normal (property obj key), t).
Proof. intros H. unfold get. now rewrite H. Qed.

Lemma InternalServerError_fields (m d : value) :
  status (InternalServerError m d) = 500 /\
  name (InternalServerError m d) = "InternalServerError" /\
  msg (InternalServerError m d) = m /\
  detail (InternalServerError m d) = d.
Proof. repeat split. Qed.

(** Classified errors: the wire body at the error's own status code; the
    [write] callback is not consulted. *)
Lemma globalErrorHandler_classified (options : option ErrorOptions)
      (e : HttpError) (req : Request) (res : Response) (next : NextFunction)
      (t : trace) :
  run (globalErrorHandler options (VHttpError e) req res next) t
  = (Normal (VResponse res), (t ++ [ResStatus (status e); ResJson (toJson e)])%list).
Proof.
  unfold globalErrorHandler, run. cbn. now rewrite <- app_assoc.
Qed.

(** Unclassified errors, once the optional [write] callback has returned. *)
Lemma globalErrorHandler_unclassified (dev : bool)
      (w : option (value -> M unit)) (err : value) (req : Request)
      (res : Response) (next : NextFunction) (t t' : trace) :
  isHttpError err = false ->
  is_nullish err = false ->
  run (optional_call w err) t = (Normal tt, t') ->
  run (globalErrorHandler (Some {| isDev := Some dev; write := w |})
                          err req res next) t
  = (Normal (VResponse res),
     (t' ++ [ResStatus 500;
             ResJson (toJson (InternalServerError
                                (if dev then property err "message"
                                 else VString "Something went wrong")
                                (if dev then property err "stack"
                                 else VNull)))])%list).
Proof.
  intros Hhttp Hnull Hw.
  assert (Hrun :
    run (optional_call w err ;;
         m <- (if dev then get err "message"
               else ret (VString "Something went wrong")) ;;
         d <- (if dev then get err "stack" else ret VNull) ;;
         let error := InternalServerError m d in
         res_status (status error) ;;
         res_json (toJson error) ;;
         ret (VResponse res)) t
    = (Normal (VResponse res),
       (t' ++ [ResStatus 500;
               ResJson (toJson (InternalServerError
                                  (if dev then property err "message"
                                   else VString "Something went wrong")
                                  (if dev then property err "stack"
                                   else VNull)))])%list)).
  { rewrite run_bind, Hw. destruct dev.
    - rewrite run_bind, (run_get err "message" t' Hnull).
      rewrite run_bind, (run_get err "stack" t' Hnull).
      unfold run. cbn. now rewrite <- app_assoc.
    - unfold run. cbn. now rewrite <- app_assoc. }
  destruct err; try discriminate Hhttp; exact Hrun.
Qed.

(** X9: if the [write] callback throws on an unclassified error, in either
    mode, the exception escapes from the error handler and no response is
    written: the trace is the one the callback left. *)
Lemma globalErrorHandler_write_throws (dev : bool)
      (w : option (value -> M unit)) (err : value) (req : Request)
      (res : Response) (next : NextFunction) (t t' : trace) (x : value) :
  isHttpError err = false ->
  run (optional_call w err) t = (Throw x, t') ->
  run (globalErrorHandler (Some {| isDev := Some dev; write := w |})
                          err req res next) t
  = (Throw x, t').
Proof.
  intros Hhttp Hw.
  destruct err; try discriminate Hhttp;
    unfold globalErrorHandler; cbn [isDev write];
    rewrite run_bind, Hw; reflexivity.
Qed.

(** C7: for every error passed to the function returned by
    [globalErrorHandler].  An [HttpError] has its wire body written at its
    own status code.  For any other error (a thrown value, hence neither
    [null] nor [undefined]) the optional [write] callback is invoked when
    provided and, once it has returned, a body named
    ["InternalServerError"] is written at status 500: its message is the
    error's own message when [isDev] is true and the fixed string
    ["Something went wrong"] when it is false; the stack is included (as
    [detail]) only when [isDev] is true, and the body has no such field
    when [isDev] is false. *)
Theorem globalErrorHandler_spec (dev : bool) (w : option (value -> M unit))
        (err : value) (req : Request) (res : Response) (next : NextFunction)
        (t : trace) :
  let handler := globalErrorHandler (Some {| isDev := Some dev; write := w |}) in
  (forall e, err = VHttpError e ->
     run (handler err req res next) t
     = (Normal (VResponse res),
        (t ++ [ResStatus (status e); ResJson (toJson e)])%list)) /\
  (isHttpError err = false -> is_nullish err = false ->
   forall t', run (optional_call w err) t = (Normal tt, t') ->
   exists body,
     run (handler err req res next) t
     = (Normal (VResponse res), (t' ++ [ResStatus 500; ResJson body])%list) /\
     field "status" body = Some (VNumber 500) /\
     field "error" body = Some (VString "InternalServerError") /\
     field "message" body
     = Some (if dev then property err "message"
             else VString "Something went wrong") /\
     (has_key "detail" body = true ->
      dev = true /\ field "detail" body = Some (property err "stack")) /\
     (dev = true -> truthy (property err "stack") = true ->
      field "detail" body = Some (property err "stack")) /\
     (dev = false ->
      body = VObject [("status", VNumber 500);
                      ("error", VString "InternalServerError");
                      ("message", VString "Something went wrong")])).
Proof.
  intros handler. subst handler. split.
  - intros e ->. apply globalErrorHandler_classified.
  - intros Hhttp Hnull t' Hw.
    eexists. split.
    { apply (globalErrorHandler_unclassified dev w err req res next t t');
        assumption. }
    set (e := InternalServerError _ _).
    destruct (toJson_fields e) as (Hs & He & Hm).
    destruct (toJson_detail e) as (Hk & Hv).
    split; [exact Hs|]. split; [exact He|]. split; [exact Hm|].
    split; [|split].
    + intros Hkey. rewrite Hk in Hkey.
      destruct dev; [|discriminate Hkey].
      split; [reflexivity | now apply Hv].
    + intros -> Hstack. now apply Hv.
    + intros ->. reflexivity.
Qed.

Lemma globalErrorHandler_spec_witness :
  let production := Some {| isDev := Some false; write := Some console_error |} in
  let missing := NotFoundError (VString "missing") VUndefined in
  let boom := VObject [("message", VString "boom");
                       ("stack", VString "Error: boom at handler")] in
  run (globalErrorHandler production (VHttpError missing) VNull 0%nat next_stage) []
  = (Normal (VResponse 0), [ResStatus 404; ResJson (toJson missing)]) /\
  exists body,
    run (globalErrorHandler production boom VNull 0%nat next_stage) []
    = (Normal (VResponse 0), [ConsoleError boom; ResStatus 500; ResJson body]) /\
    body = VObject [("status", VNumber 500);
                    ("error", VString "InternalServerError");
                    ("message", VString "Something went wrong")].
Proof.
  intros production missing boom. split.
  - apply (proj1 (globalErrorHandler_spec false (Some console_error)
                    (VHttpError missing) VNull 0%nat next_stage []) missing).
    reflexivity.
  - destruct (proj2 (globalErrorHandler_spec false (Some console_error)
                       boom VNull 0%nat next_stage [])
                    eq_refl eq_refl [ConsoleError boom] eq_refl)
      as (body & Hrun & _ & _ & _ & _ & _ & Hbody).
    exists body. split; [exact Hrun | exact (Hbody eq_refl)].
Defined.

(** Scenario D: a plain runtime error in production mode. *)
Example scenario_production_error :
  run (globalErrorHandler (Some {| isDev := Some false; write := None |})
         (VObject [("message", VString "boom");
                   ("stack", VString "Error: boom at handler")])
         VNull 0%nat next_stage) []
  = (Normal (VResponse 0),
     [ResStatus 500;
      ResJson (VObject [("status", VNumber 500);
                        ("error", VString "InternalServerError");
                        ("message", VString "Something went wrong")])]).
Proof. reflexivity. Qed.

(** C10: called without options, or with [isDev] left unspecified,
    [globalErrorHandler] behaves as with [isDev: true]; so by default an
    unclassified error reaches the client with its own message and its
    stack (as [detail]) instead of the generic production body. *)
Theorem globalErrorHandler_default_isDev (w : option (value -> M unit)) :
  globalErrorHandler None
  = globalErrorHandler (Some {| isDev := Some true; write := None |}) /\
  globalErrorHandler (Some {| isDev := None; write := w |})
  = globalErrorHandler (Some {| isDev := Some true; write := w |}) /\
  (forall err req res next t,
      isHttpError err = false -> is_nullish err = false ->
      run (globalErrorHandler None err req res next) t
      = (Normal (VResponse res),
         (t ++ [ResStatus 500;
                ResJson (toJson (InternalServerError (property err "message")
                                                     (property err "stack")))])%list)).
Proof.
  split; [reflexivity | split; [reflexivity|]].
  intros err req res next t Hhttp Hnull.
  change (globalErrorHandler None)
    with (globalErrorHandler (Some {| isDev := Some true; write := None |})).
  now apply (globalErrorHandler_unclassified true None err req res next t t).
Qed.

Lemma globalErrorHandler_default_isDev_witness :
  let boom := VObject [("message", VString "boom");
                       ("stack", VString "Error: boom at handler")] in
  run (globalErrorHandler None boom VNull 0%nat next_stage) []
  = (Normal (VResponse 0),
     [ResStatus 500;
      ResJson (VObject [("status", VNumber 500);
                        ("error", VString "InternalServerError");
                        ("message", VString "boom");
                        ("detail", VString "Error: boom at handler")])]).
Proof.
  intros boom.
  apply (proj2 (proj2 (globalErrorHandler_default_isDev None))
               boom VNull 0%nat next_stage []); reflexivity.
Defined.

(** ** [proxyWrapper] *)

Lemma proxyWrapper_target (c : Proxy.ClsOrInstance) (args : list value)
      (view : Proxy.View) :
  Proxy.proxyWrapper c args = Normal view ->
  match c with
  | Proxy.Cls cls => cls args = Normal (Proxy.target view)
  | Proxy.Inst instance => Proxy.target view = instance
  end.
Proof.
  destruct c as [cls | instance]; simpl.
  - destruct (cls args) as [i | e]; [|discriminate]. now intros [= <-].
  - now intros [= <-].
Qed.

(** C8: on every view produced by [proxyWrapper], assigning any property
    any value throws the error "Overriding methods and properties is not
    allowed." and leaves the wrapped instance as it was: the same target,
    hence the same result for every later read. *)
Theorem proxy_write_protected (c : Proxy.ClsOrInstance) (args : list value)
        (view : Proxy.View) (prop : string) (v : value) :
  Proxy.proxyWrapper c args = Normal view ->
  Proxy.write view prop v
  = (Throw (Error_new "Overriding methods and properties is not allowed."), view) /\
  Proxy.target (snd (Proxy.write view prop v)) = Proxy.target view /\
  (forall key, Proxy.read (snd (Proxy.write view prop v)) key
               = Proxy.read view key).
Proof.
  intros _. destruct view as [target]. repeat split.
Qed.

Lemma proxy_write_protected_witness :
  let view := {| Proxy.target :=
                   {| Proxy.fields := [("message", VString "x")];
                      Proxy.methods := [] |} |} in
  Proxy.write view "message" (VString "y")
  = (Throw (Error_new "Overriding methods and properties is not allowed."), view) /\
  Proxy.target (snd (Proxy.write view "message" (VString "y")))
  = Proxy.target view /\
  (forall key, Proxy.read (snd (Proxy.write view "message" (VString "y"))) key
               = Proxy.read view key).
Proof.
  intros view.
  apply (proxy_write_protected (Proxy.Inst (Proxy.target view)) [] view
                               "message" (VString "y")).
  reflexivity.
Defined.

(** For contrast, the same assignment on the bare instance goes through
    and changes it. *)
Example assign_changes_instance :
  let instance := {| Proxy.fields := [("message", VString "x")];
                     Proxy.methods := [] |} in
  fst (Proxy.assign instance "message" (VString "y")) = Normal tt /\
  Proxy.Reflect_get (snd (Proxy.assign instance "message" (VString "y"))) "message"
  = Proxy.PValue (VString "y").
Proof. split; reflexivity. Qed.

(** C9: [proxyWrapper] wraps the very object it is given: the instance
    passed directly, or, for a constructor with arguments, the instance
    that [new cls(...args)] builds from those arguments.  On the view it
    returns, reading a property whose value on that instance is a
    function yields that function bound to the instance and passed
    through [asyncHandler], so that calling it runs the original method
    on the instance; reading any other property yields the instance's
    value unchanged. *)
Theorem proxy_read_spec (c : Proxy.ClsOrInstance) (args : list value)
        (instance : Proxy.Instance) (prop : string) :
  match c with
  | Proxy.Cls cls => cls args = Normal instance
  | Proxy.Inst given => given = instance
  end ->
  exists view,
    Proxy.proxyWrapper c args = Normal view /\
    Proxy.target view = instance /\
    (forall f, Proxy.Reflect_get instance prop = Proxy.PFunction f ->
       exists handler,
         Proxy.read view prop = Proxy.PFunction handler /\
         handler = asyncHandler (Proxy.bind_this f instance) /\
         forall req res next t,
           run (handler req res next) t
           = run (asyncHandler (f (Proxy.fields instance)) req res next) t) /\
    (forall v, Proxy.Reflect_get instance prop = Proxy.PValue v ->
       Proxy.read view prop = Proxy.PValue v).
Proof.
  intros Hbuilt. exists {| Proxy.target := instance |}.
  split; [|split; [reflexivity|split]].
  - destruct c as [cls | given]; simpl.
    + now rewrite Hbuilt.
    + now subst given.
  - intros f Hget. eexists. split; [|split; [reflexivity|reflexivity]].
    unfold Proxy.read, Proxy.get_trap. cbn [Proxy.target]. now rewrite Hget.
  - intros v Hget.
    unfold Proxy.read, Proxy.get_trap. cbn [Proxy.target]. now rewrite Hget.
Qed.

Lemma proxy_read_spec_witness :
  let built :=
    {| Proxy.fields := [("message", VString "x")];
       Proxy.methods :=
         [("getData",
           fun this _ _ _ =>
             ret (RPromise (Fulfilled (property (VObject this) "message"))))] |} in
  (exists view,
      Proxy.proxyWrapper (Proxy.Cls Proxy.ExampleController) [VString "x"]
      = Normal view /\
      Proxy.target view = built /\
      exists handler,
        Proxy.read view "getData" = Proxy.PFunction handler /\
        run (handler VNull 0%nat next_stage) []
        = (Normal (RValue VUndefined), [ResSend (VString "x")])) /\
  (exists view,
      Proxy.proxyWrapper (Proxy.Inst built) [] = Normal view /\
      Proxy.target view = built /\
      Proxy.read view "message" = Proxy.PValue (VString "x") /\
      exists handler,
        Proxy.read view "getData" = Proxy.PFunction handler /\
        run (handler VNull 0%nat next_stage) []
        = (Normal (RValue VUndefined), [ResSend (VString "x")])).
Proof.
  intros built. split.
  - destruct (proxy_read_spec (Proxy.Cls Proxy.ExampleController)
                [VString "x"] built "getData" eq_refl)
      as (view & Hview & Htarget & Hfun & _).
    exists view. split; [exact Hview|]. split; [exact Htarget|].
    destruct (Hfun _ eq_refl) as (handler & Hread & _ & Hrun).
    exists handler. split; [exact Hread|].
    rewrite Hrun. reflexivity.
  - destruct (proxy_read_spec (Proxy.Inst built) [] built "getData" eq_refl)
      as (view & Hview & Htarget & Hfun & _).
    destruct (proxy_read_spec (Proxy.Inst built) [] built "message" eq_refl)
      as (view' & Hview' & _ & _ & Hval).
    rewrite Hview in Hview'. injection Hview' as <-.
    exists view. split; [exact Hview|]. split; [exact Htarget|].
    split; [exact (Hval _ eq_refl)|].
    destruct (Hfun _ eq_refl) as (handler & Hread & _ & Hrun).
    exists handler. split; [exact Hread|].
    rewrite Hrun. reflexivity.
Defined.

(** ** The status table and the error names, beyond the range guard *)

Lemma in_status_codes (c : Z) : 100 <= c <= 511 -> In c status_codes.
Proof.
  intros H. unfold status_codes. rewrite <- (Z2Nat.id c) by lia.
  apply in_map, in_seq. lia.
Qed.

Lemma in_error_codes (c : Z) : 400 <= c <= 511 -> In c error_codes.
Proof.
  intros H. unfold error_codes. rewrite <- (Z2Nat.id c) by lia.
  apply in_map, in_seq. lia.
Qed.

(** A check that holds on every listed code holds on the whole interval. *)
Lemma on_error_codes (P : Z -> bool) :
  forallb P error_codes = true -> forall c, 400 <= c <= 511 -> P c = true.
Proof.
  intros Hall c Hc. rewrite forallb_forall in Hall.
  now apply Hall, in_error_codes.
Qed.

Lemma on_status_codes (P : Z -> bool) :
  forallb P status_codes = true -> forall c, 100 <= c <= 511 -> P c = true.
Proof.
  intros Hall c Hc. rewrite forallb_forall in Hall.
  now apply Hall, in_status_codes.
Qed.

(** Decimal printing is injective. *)
Lemma of_Z_inj (a b : Z) : Str.of_Z a = Str.of_Z b -> a = b.
Proof.
  unfold Str.of_Z. intros H.
  assert (Hnz : forall z, Z.to_int z <> Decimal.Pos Decimal.Nil /\
                          Z.to_int z <> Decimal.Neg Decimal.Nil).
  { intros [|p|p]; split; simpl; try discriminate;
      intros [= E]; now apply DecimalPos.Unsigned.to_uint_nonnil in E. }
  apply DecimalZ.to_int_inj.
  assert (E : Some (Z.to_int a) = Some (Z.to_int b)).
  { rewrite <- (NilZero.isi (Z.to_int a)) by apply Hnz.
    rewrite <- (NilZero.isi (Z.to_int b)) by apply Hnz.
    now rewrite H. }
  now injection E.
Qed.

Lemma length_append (s1 s2 : string) :
  String.length (s1 ++ s2) = (String.length s1 + String.length s2)%nat.
Proof. induction s1 as [|c r IH]; simpl; [reflexivity | now rewrite IH]. Qed.

Lemma append_cancel_r (s1 s2 x : string) :
  (s1 ++ x)%string = (s2 ++ x)%string -> s1 = s2.
Proof.
  revert s2. induction s1 as [|c r IH]; intros [|c' r'] H; simpl in H.
  - reflexivity.
  - apply (f_equal String.length) in H. simpl in H.
    rewrite length_append in H. lia.
  - apply (f_equal String.length) in H. simpl in H.
    rewrite length_append in H. lia.
  - injection H as -> H. f_equal. now apply IH.
Qed.

(** Only codes between 100 and 511 have a name entry. *)
Lemma name_of_range (c : Z) (n : string) :
  HttpStatus.name_of c = Some n -> 100 <= c <= 511.
Proof.
  intros H. apply lookup_In in H.
  assert (Hall : forallb (fun kv : string * string =>
                   existsb (fun c' => String.eqb (fst kv) (Str.of_Z c' ++ "_NAME"))
                           status_codes)
                   HttpStatus.NAMES = true) by (vm_compute; reflexivity).
  rewrite forallb_forall in Hall. specialize (Hall _ H). cbn [fst] in Hall.
  apply existsb_exists in Hall as (c' & Hin & Heq).
  apply String.eqb_eq, append_cancel_r, of_Z_inj in Heq. subst c'.
  unfold status_codes in Hin. apply in_map_iff in Hin as (k & <- & Hk).
  apply in_seq in Hk. lia.
Qed.

Lemma code_of_in_In (key : string) (tbl : list (string * Z)) (v : Z) :
  code_of_in key tbl = Some v -> In (key, v) tbl.
Proof.
  induction tbl as [|[k w] rest IH]; simpl; [discriminate|].
  destruct (String.eqb_spec k key) as [->|_].
  - intros [= ->]. now left.
  - intros H. right. now apply IH.
Qed.

(** X1: names and constants of the status table are two views of the same
    mapping.  For every code with a name entry, reading the constant of
    that name gives the code back, and for every constant, the name entry
    of its code is the constant's name; the one exception is 103, named
    [EARLY_HINTS] while its constant is spelled [EARLYHINTS]. *)
Theorem status_table_round_trip :
  (forall c n, HttpStatus.name_of c = Some n -> c <> 103 ->
               code_of n = Some c) /\
  (forall k c, code_of k = Some c -> k <> "EARLYHINTS" ->
               HttpStatus.name_of c = Some k) /\
  HttpStatus.name_of 103 = Some "EARLY_HINTS" /\
  code_of "EARLY_HINTS" = None /\
  code_of "EARLYHINTS" = Some 103.
Proof.
  split; [|split; [|repeat split]].
  - intros c n Hn Hc.
    pose proof (name_of_range c n Hn) as Hrange.
    assert (Hall : forallb (fun c =>
                     match HttpStatus.name_of c with
                     | Some n =>
                         ((c =? 103)
                          || match code_of n with
                             | Some c' => c' =? c
                             | None => false
                             end)%bool
                     | None => true
                     end) status_codes = true) by (vm_compute; reflexivity).
    pose proof (on_status_codes _ Hall c Hrange) as Hcheck.
    cbv beta in Hcheck. rewrite Hn in Hcheck.
    apply orb_true_iff in Hcheck as [H103 | Hcode].
    + apply Z.eqb_eq in H103. contradiction.
    + destruct (code_of n) as [c'|]; [|discriminate].
      apply Z.eqb_eq in Hcode. now subst c'.
  - intros k c Hk Hne.
    apply code_of_in_In in Hk.
    assert (Hall : forallb (fun kc : string * Z =>
                     (String.eqb (fst kc) "EARLYHINTS"
                      || match HttpStatus.name_of (snd kc) with
                         | Some n => String.eqb n (fst kc)
                         | None => false
                         end)%bool) HttpStatus_CODES = true)
      by (vm_compute; reflexivity).
    rewrite forallb_forall in Hall. specialize (Hall _ Hk).
    cbn [fst snd] in Hall.
    apply orb_true_iff in Hall as [He | Hname].
    + apply String.eqb_eq in He. contradiction.
    + destruct (HttpStatus.name_of c) as [n|]; [|discriminate].
      apply String.eqb_eq in Hname. now subst n.
Qed.

Lemma status_table_round_trip_witness :
  code_of "NOT_FOUND" = Some 404 /\ HttpStatus.name_of 404 = Some "NOT_FOUND".
Proof.
  split.
  - apply (proj1 status_table_round_trip 404 "NOT_FOUND");
      [reflexivity | discriminate].
  - apply (proj1 (proj2 status_table_round_trip) "NOT_FOUND" 404);
      [reflexivity | discriminate].
Defined.

(** X2: whatever the status, the name [getErrorName] gives ends with
    ["Error"] exactly once (it never ends with ["ErrorError"]: a name that
    already has the suffix, as that of 500, gets no second one) and
    consists of letters only (no underscore or space of the symbolic name
    survives).  For a registered code of [400, 511], the name is the
    formatted symbolic name itself when that ends with ["Error"], and the
    formatted name followed by ["Error"] otherwise. *)
Theorem getErrorName_wellformed (c : Z) :
  Str.endsWith (getErrorName c) "Error" = true /\
  Str.endsWith (getErrorName c) "ErrorError" = false /\
  Str.all_chars is_letter (getErrorName c) = true /\
  (forall key, 400 <= c <= 511 -> HttpStatus.name_of c = Some key ->
     getErrorName c
     = if Str.endsWith (formatName key) "Error" then formatName key
       else (formatName key ++ "Error")%string) /\
  getErrorName 500 = "InternalServerError".
Proof.
  assert (Hsuffix : forall key, 400 <= c <= 511 ->
            HttpStatus.name_of c = Some key ->
            getErrorName c
            = if Str.endsWith (formatName key) "Error" then formatName key
              else (formatName key ++ "Error")%string).
  { intros key Hrange Hname.
    rewrite (getErrorName_in_range c Hrange), Hname.
    apply lookup_In, NAMES_wellformed in Hname as [_ Hne].
    destruct key as [|a k]; [contradiction | reflexivity]. }
  assert (Hmain : Str.endsWith (getErrorName c) "Error" = true /\
                  Str.endsWith (getErrorName c) "ErrorError" = false /\
                  Str.all_chars is_letter (getErrorName c) = true).
  { destruct (Z.ltb_spec c 400) as [Hlo|Hlo].
    { rewrite getErrorName_out_of_range by now left. now vm_compute. }
    destruct (Z.ltb_spec 511 c) as [Hhi|Hhi].
    { rewrite getErrorName_out_of_range by now right. now vm_compute. }
    assert (Hall : forallb (fun c =>
                     (Str.endsWith (getErrorName c) "Error"
                      && negb (Str.endsWith (getErrorName c) "ErrorError")
                      && Str.all_chars is_letter (getErrorName c))%bool)
                     error_codes = true) by (vm_compute; reflexivity).
    pose proof (on_error_codes _ Hall c (conj Hlo Hhi)) as Hcheck.
    cbv beta in Hcheck.
    apply andb_true_iff in Hcheck as [Hcheck Hletters].
    apply andb_true_iff in Hcheck as [Hends Hdouble].
    apply negb_true_iff in Hdouble. auto. }
  destruct Hmain as (H1 & H2 & H3).
  split; [exact H1|]. split; [exact H2|]. split; [exact H3|].
  split; [exact Hsuffix | reflexivity].
Qed.

Lemma getErrorName_wellformed_witness :
  getErrorName 500 = "InternalServerError" /\
  getErrorName 404 = "NotFoundError".
Proof.
  split.
  - apply (proj1 (proj2 (proj2 (proj2 (getErrorName_wellformed 500))))
                 "INTERNAL_SERVER_ERROR"); [lia | reflexivity].
  - apply (proj1 (proj2 (proj2 (proj2 (getErrorName_wellformed 404))))
                 "NOT_FOUND"); [lia | reflexivity].
Defined.

(** X3: the fallback name ["HttpError"] is given exactly to the codes
    outside [400, 511] and to the codes without a name entry; a registered
    code of the range never gets it. *)
Theorem getErrorName_fallback_iff (c : Z) :
  getErrorName c = "HttpError" <->
  (c < 400 \/ 511 < c \/ HttpStatus.name_of c = None).
Proof.
  split.
  - intros Hname.
    destruct (Z.ltb_spec c 400) as [Hlo|Hlo]; [now left|].
    destruct (Z.ltb_spec 511 c) as [Hhi|Hhi]; [now right; left|].
    right. right.
    assert (Hall : forallb (fun c =>
                     match HttpStatus.name_of c with
                     | Some _ => negb (String.eqb (getErrorName c) "HttpError")
                     | None => true
                     end) error_codes = true) by (vm_compute; reflexivity).
    pose proof (on_error_codes _ Hall c (conj Hlo Hhi)) as Hcheck.
    cbv beta in Hcheck.
    destruct (HttpStatus.name_of c); [|reflexivity].
    rewrite Hname in Hcheck. discriminate Hcheck.
  - intros [Hlo | [Hhi | Hnone]].
    + apply getErrorName_out_of_range. now left.
    + apply getErrorName_out_of_range. now right.
    + destruct (Z.ltb_spec c 400) as [Hlt|Hge];
        [apply getErrorName_out_of_range; now left|].
      destruct (Z.ltb_spec 511 c) as [Hgt|Hle];
        [apply getErrorName_out_of_range; now right|].
      rewrite getErrorName_in_range by lia. now rewrite Hnone.
Qed.

(** X4: two different registered codes of [400, 511] never share a name,
    so the name of a registered error status identifies the status. *)
Theorem getErrorName_injective (c1 c2 : Z) (n1 n2 : string) :
  400 <= c1 <= 511 -> 400 <= c2 <= 511 ->
  HttpStatus.name_of c1 = Some n1 -> HttpStatus.name_of c2 = Some n2 ->
  getErrorName c1 = getErrorName c2 -> c1 = c2.
Proof.
  intros H1 H2 Hn1 Hn2 Heq.
  assert (Hall : forallb (fun a =>
                   forallb (fun b =>
                     match HttpStatus.name_of a, HttpStatus.name_of b with
                     | Some _, Some _ =>
                         (negb (String.eqb (getErrorName a) (getErrorName b))
                          || (a =? b))%bool
                     | _, _ => true
                     end) error_codes) error_codes = true)
    by (vm_compute; reflexivity).
  pose proof (on_error_codes _ Hall c1 H1) as Hrow. cbv beta in Hrow.
  pose proof (on_error_codes _ Hrow c2 H2) as Hcheck. cbv beta in Hcheck.
  rewrite Hn1, Hn2, Heq, String.eqb_refl in Hcheck.
  now apply Z.eqb_eq in Hcheck.
Qed.

Lemma getErrorName_injective_witness :
  404 = 404 /\ getErrorName 404 <> getErrorName 409.
Proof.
  split.
  - apply (getErrorName_injective 404 404 "NOT_FOUND" "NOT_FOUND");
      first [lia | reflexivity].
  - intros Heq.
    assert (E : 404 = 409)
      by (apply (getErrorName_injective 404 409 "NOT_FOUND" "CONFLICT");
          first [lia | reflexivity | exact Heq]).
    discriminate E.
Defined.

(** ** The chain of replacements on arbitrary names *)

Lemma word_char_alnum (c : ascii) :
  Str.is_word c = true -> Ascii.eqb c "_" = false ->
  is_alnum (Str.lower_char c) = true /\
  is_alnum (Str.upper_char (Str.lower_char c)) = true.
Proof.
  destruct c as [[] [] [] [] [] [] [] []]; vm_compute; intuition congruence.
Qed.

Lemma pipeline_alnum (s : string) :
  Str.all_chars Str.is_word s = true ->
  forall prev, Str.all_chars is_alnum (NameSpec.pipeline prev s) = true.
Proof.
  induction s as [|c r IH]; intros Hall prev; [reflexivity|].
  simpl in Hall. apply andb_true_iff in Hall as [Hc Hr].
  specialize (IH Hr). rewrite pipeline_cons.
  destruct (Ascii.eqb c "_") eqn:Eu.
  - apply Ascii.eqb_eq in Eu. subst c. apply IH.
  - destruct (word_char_facts c Hc Eu) as (E1 & E2 & E3 & E4 & E5).
    destruct (word_char_alnum c Hc Eu) as (A1 & A2).
    cbv zeta. rewrite E1, E2.
    destruct prev; simpl.
    + rewrite E3. simpl. now rewrite A1, IH.
    + rewrite E4. simpl. now rewrite A2, IH.
Qed.

(** X5: on every name made of letters, digits and underscores, in any
    mix of cases, the chain [toLowerCase / replace / replace / replace] of
    [getErrorName] gives the PascalCase form (each underscore-separated
    word capitalised, the rest in lower case, the underscores dropped),
    and the result holds letters and digits only. *)
Theorem formatName_pascal (key : string) :
  Str.all_chars Str.is_word key = true ->
  formatName key = NameSpec.pascal_case key /\
  Str.all_chars is_alnum (formatName key) = true.
Proof.
  intros Hall. split.
  - now apply formatName_pascal_case.
  - change (formatName key) with (NameSpec.pipeline false key).
    now apply pipeline_alnum.
Qed.

Lemma formatName_pascal_witness :
  formatName "http_VERSION_not__supported" = "HttpVersionNotSupported" /\
  Str.all_chars is_alnum (formatName "http_VERSION_not__supported") = true.
Proof.
  apply (formatName_pascal "http_VERSION_not__supported"). reflexivity.
Defined.

Lemma globalErrorHandler_write_throws_witness :
  let failing : value -> M unit := fun _ => raise (Error_new "disk full") in
  run (globalErrorHandler (Some {| isDev := Some false; write := Some failing |})
                          (Error_new "boom") VNull 0%nat next_stage) []
  = (Throw (Error_new "disk full"), []).
Proof.
  intros failing.
  apply (globalErrorHandler_write_throws false (Some failing) (Error_new "boom")
           VNull 0%nat next_stage [] [] (Error_new "disk full"));
    reflexivity.
Defined.

(** ** Wrapping, forwarding and the error handler together *)

(** X6: wrapping an already wrapped handler changes nothing: the inner
    wrapper has dealt with the outcome and hands back [undefined], for
    which the outer one does nothing. *)
Theorem asyncHandler_idempotent (func : ReqHandler) (req : Request)
        (res : Response) (t : trace) :
  run (asyncHandler (asyncHandler func) req res next_stage) t
  = run (asyncHandler func req res next_stage) t.
Proof.
  rewrite (asyncHandler_run (asyncHandler func)).
  rewrite (asyncHandler_run func). cbn [fst snd wrapper_calls].
  change (handleResult_calls VUndefined res) with (@nil event).
  now rewrite app_nil_r.
Qed.

(** X7: an error thrown by a handler, or the reason of the promise it
    returns, reaches [next] as the very same value, whatever it is; when
    that value is an [HttpError], [globalErrorHandler] answers with the
    error's own status and wire body under every choice of options,
    without consulting the [write] callback, the request or [next]. *)
Theorem error_route (func : ReqHandler) (req : Request) (res : Response)
        (t t1 : trace) (err : value) :
  run (func req res next_stage) t = (Throw err, t1) \/
  run (func req res next_stage) t = (Normal (RPromise (Rejected err)), t1) ->
  run (asyncHandler func req res next_stage) t
  = (Normal (RValue VUndefined), (t1 ++ [NextCalled err])%list) /\
  (forall e options req' next' t2,
      err = VHttpError e ->
      run (globalErrorHandler options err req' res next') t2
      = (Normal (VResponse res),
         (t2 ++ [ResStatus (status e); ResJson (toJson e)])%list)).
Proof.
  intros Hfail. split.
  - rewrite asyncHandler_run.
    destruct Hfail as [H | H]; now rewrite H.
  - intros e options req' next' t2 ->. apply globalErrorHandler_classified.
Qed.

Lemma error_route_witness :
  let missing := VHttpError (NotFoundError (VString "missing") VUndefined) in
  let func : ReqHandler := fun _ _ _ => ret (RPromise (Rejected missing)) in
  run (asyncHandler func VNull 0%nat next_stage) []
  = (Normal (RValue VUndefined), [NextCalled missing]) /\
  run (globalErrorHandler None missing VNull 0%nat next_stage) []
  = (Normal (VResponse 0),
     [ResStatus 404;
      ResJson (VObject [("status", VNumber 404);
                        ("error", VString "NotFoundError");
                        ("message", VString "missing")])]).
Proof.
  intros missing func.
  destruct (error_route func VNull 0%nat [] [] missing (or_intror eq_refl))
    as [Hforward Hanswer].
  split; [exact Hforward|].
  exact (Hanswer (NotFoundError (VString "missing") VUndefined)
                 None VNull next_stage [] eq_refl).
Defined.

(** X8: an error that is [null] or [undefined].  With [isDev] false the
    generic body is written as for any other unclassified error; with
    [isDev] true the read of [err.message] throws once the [write]
    callback has returned, and no response is written. *)
Theorem globalErrorHandler_nullish (dev : bool) (w : option (value -> M unit))
        (err : value) (req : Request) (res : Response) (next : NextFunction)
        (t t' : trace) :
  is_nullish err = true ->
  run (optional_call w err) t = (Normal tt, t') ->
  let outcome :=
    run (globalErrorHandler (Some {| isDev := Some dev; write := w |})
                            err req res next) t in
  (dev = false ->
   outcome = (Normal (VResponse res),
              (t' ++ [ResStatus 500;
                      ResJson (VObject [("status", VNumber 500);
                                        ("error", VString "InternalServerError");
                                        ("message", VString "Something went wrong")])])%list)) /\
  (dev = true -> exists e, outcome = (Throw e, t')).
Proof.
  intros Hnull Hw outcome. subst outcome.
  assert (Hrun : forall k : M value,
             run (optional_call w err ;; k) t = run k t').
  { intros k. now rewrite run_bind, Hw. }
  split; intros ->.
  - destruct err; try discriminate Hnull;
      unfold globalErrorHandler; cbn [isDev write]; rewrite Hrun;
      unfold run; cbn; now rewrite <- app_assoc.
  - eexists.
    destruct err; try discriminate Hnull;
      unfold globalErrorHandler; cbn [isDev write]; rewrite Hrun;
      reflexivity.
Qed.

Lemma globalErrorHandler_nullish_witness :
  run (globalErrorHandler (Some {| isDev := Some false; write := Some console_error |})
                          VNull VNull 0%nat next_stage) []
  = (Normal (VResponse 0),
     [ConsoleError VNull; ResStatus 500;
      ResJson (VObject [("status", VNumber 500);
                        ("error", VString "InternalServerError");
                        ("message", VString "Something went wrong")])]) /\
  exists e,
    run (globalErrorHandler (Some {| isDev := Some true; write := Some console_error |})
                            VNull VNull 0%nat next_stage) []
    = (Throw e, [ConsoleError VNull]).
Proof.
  split.
  - apply (proj1 (globalErrorHandler_nullish false (Some console_error) VNull
                    VNull 0%nat next_stage [] [ConsoleError VNull]
                    eq_refl eq_refl)).
    reflexivity.
  - apply (proj2 (globalErrorHandler_nullish true (Some console_error) VNull
                    VNull 0%nat next_stage [] [ConsoleError VNull]
                    eq_refl eq_refl)).
    reflexivity.
Defined.

(** ** [getHandlerFromClass] against [proxyWrapper] *)

(** X10: [getHandlerFromClass(cls, ...args)] and [proxyWrapper(cls, ...args)]
    build the same instance and fail together, with the constructor's
    exception.  For a key that holds a function, both give the same wrapped
    handler; for any other key, including a missing one, the proxy gives
    the value itself while [getHandlerFromClass] throws an error saying
    that the key is not a function. *)
Theorem getHandlerFromClass_spec (cls : Proxy.Constructor) (args : list value) :
  (forall e, getHandlerFromClass cls args = Throw e <->
             Proxy.proxyWrapper (Proxy.Cls cls) args = Throw e) /\
  (forall pick view key,
      getHandlerFromClass cls args = Normal pick ->
      Proxy.proxyWrapper (Proxy.Cls cls) args = Normal view ->
      match Proxy.read view key with
      | Proxy.PFunction handler => pick key = Normal handler
      | Proxy.PValue _ =>
          pick key = Throw (Error_new ("The key '" ++ key
                                       ++ "' is not a function in Function."))
      end).
Proof.
  unfold getHandlerFromClass, Proxy.proxyWrapper. split.
  - intros e. destruct (cls args) as [instance | e']; split;
      intros H; try discriminate H; now injection H as ->.
  - intros pick view key Hpick Hview.
    destruct (cls args) as [instance | e']; [|discriminate Hpick].
    injection Hpick as <-. injection Hview as <-.
    unfold Proxy.read, Proxy.get_trap. cbn [Proxy.target].
    now destruct (Proxy.Reflect_get instance key).
Qed.

Lemma getHandlerFromClass_spec_witness :
  exists pick,
    getHandlerFromClass Proxy.ExampleController [VString "x"] = Normal pick /\
    (exists handler,
        pick "getData" = Normal handler /\
        run (handler VNull 0%nat next_stage) []
        = (Normal (RValue VUndefined), [ResSend (VString "x")])) /\
    pick "message"
    = Throw (Error_new "The key 'message' is not a function in Function.") /\
    pick "absent"
    = Throw (Error_new "The key 'absent' is not a function in Function.").
Proof.
  eexists. split; [reflexivity|].
  epose proof (fun key =>
                 proj2 (getHandlerFromClass_spec Proxy.ExampleController
                          [VString "x"]) _ _ key eq_refl eq_refl) as Hkey.
  split; [|split].
  - eexists. split.
    + exact (Hkey "getData").
    + reflexivity.
  - exact (Hkey "message").
  - exact (Hkey "absent").
Defined.

(** ** The named specialisations of [HttpError] *)


(** ** [serveStatic] *)

Section ServeStaticFacts.

Variable pathMatch : string -> completion (string -> bool).
Variable join : string -> string -> string.
Variable cwd : string.
Variable expressRouter : string -> completion unit.

#[local] Abbreviation compile := (Static.compile pathMatch).
#[local] Abbreviation serveStatic :=
  (Static.serveStatic pathMatch join cwd expressRouter).

Lemma compile_matchers (excludes : list string) (ms : list (string -> bool)) :
  compile excludes = Normal ms ->
  forall pathname,
    Static.isExcluded ms pathname = true <->
    exists pattern matcher,
      In pattern excludes /\ pathMatch pattern = Normal matcher /\
      matcher pathname = true.
Proof.
  revert ms. induction excludes as [|p ps IH]; intros ms Hc pathname;
    simpl in Hc.
  - injection Hc as <-. split; [discriminate | now intros (? & ? & [] & _)].
  - destruct (pathMatch p) as [m|e] eqn:Hp; [|discriminate Hc].
    destruct (compile ps) as [ms'|e] eqn:Hps; [|discriminate Hc].
    injection Hc as <-. unfold Static.isExcluded in *. simpl.
    rewrite orb_true_iff, (IH ms' eq_refl pathname). split.
    + intros [Hm | (q & mq & Hin & Hq & Hmq)].
      * exists p, m. auto.
      * exists q, mq. auto.
    + intros (q & mq & [<- | Hin] & Hq & Hmq).
      * left. rewrite Hp in Hq. now injection Hq as ->.
      * right. exists q, mq. auto.
Qed.

Lemma compile_failure (excludes : list string) (e : value) :
  compile excludes = Throw e <->
  exists before pattern after,
    excludes = (before ++ pattern :: after)%list /\
    (forall q, In q before -> exists m, pathMatch q = Normal m) /\
    pathMatch pattern = Throw e.
Proof.
  induction excludes as [|p ps IH]; simpl.
  - split; [discriminate|]. intros (b & q & a & H & _).
    now destruct b.
  - destruct (pathMatch p) as [m|e'] eqn:Hp.
    + destruct (compile ps) as [ms|e''] eqn:Hps.
      * split; [discriminate|].
        intros (b & q & a & Heq & Hb & Hq).
        destruct b as [|b0 b]; simpl in Heq; injection Heq as -> ->.
        -- rewrite Hp in Hq. discriminate Hq.
        -- assert (Hex : Normal ms = Throw e) by
             (apply (proj2 IH); exists b, q, a; repeat split; auto;
              intros q' Hq'; apply Hb; now right) .
           discriminate Hex.
      * split.
        -- intros Hthrow. apply (proj1 IH) in Hthrow
             as (b & q & a & -> & Hb & Hq).
           exists (p :: b), q, a. repeat split; auto.
           intros q' [<- | Hin]; [now exists m | now apply Hb].
        -- intros (b & q & a & Heq & Hb & Hq).
           destruct b as [|b0 b]; simpl in Heq; injection Heq as -> ->.
           ++ rewrite Hp in Hq. discriminate Hq.
           ++ apply (proj2 IH). exists b, q, a. repeat split; auto.
              intros q' Hq'. apply Hb. now right.
    + split.
      * intros [= ->]. exists [], p, ps. repeat split; auto.
        intros q [].
      * intros (b & q & a & Heq & Hb & Hq).
        destruct b as [|b0 b]; simpl in Heq; injection Heq as -> ->.
        -- rewrite Hp in Hq. now injection Hq as ->.
        -- destruct (Hb b0 (or_introl eq_refl)) as [m Hm].
           rewrite Hp in Hm. discriminate Hm.
Qed.

(** What [serveStatic] computes, once the options are read. *)
Lemma serveStatic_unfold (options : option Static.ServeOptions) :
  serveStatic options =
  let root :=
    match options with
    | Some {| Static.path := Some p |} => p
    | _ => join cwd "public"
    end in
  match compile (Static.excludes_of options) with
  | Throw e => Throw e
  | Normal ms =>
      match expressRouter root with
      | Throw e => Throw e
      | Normal _ =>
          Normal {| Static.static_root := root;
                    Static.renderIndex := fun originalUrl =>
                      if Static.isExcluded ms (Static.pathname_of originalUrl)
                      then [Static.Next]
                      else [Static.SendFile (join root "index.html")] |}
      end
  end.
Proof.
  destruct options as [[[[p|ps]|] [root|]]|]; reflexivity.
Qed.

(** The part of a URL before its first question mark. *)
Lemma pathname_of_query (p q : string) :
  Str.all_chars (fun c => negb (Ascii.eqb c "?")) p = true ->
  Static.pathname_of (p ++ String "?" q) = p /\ Static.pathname_of p = p.
Proof.
  unfold Static.pathname_of. induction p as [|c r IH]; intros Hall.
  - split; reflexivity.
  - simpl in Hall. apply andb_true_iff in Hall as [Hc Hr].
    apply negb_true_iff in Hc. destruct (IH Hr) as [IH1 IH2].
    simpl. rewrite Hc.
    destruct (Str.split_on "?" (r ++ String "?" q)) as [|w ws] eqn:E1;
      [now apply split_on_not_nil in E1|].
    destruct (Str.split_on "?" r) as [|w' ws'] eqn:E2;
      [now apply split_on_not_nil in E2|].
    simpl in *. now subst.
Qed.

(** X12: for every request that reaches it, the fallback of the router
    makes exactly one call: [next()], without an error, when at least one
    exclude pattern matches the path of the request, and otherwise
    [res.sendFile] of [index.html] in the directory served.  The directory
    is [options.path], or [public] under the working directory; the
    patterns are [options.exclude] (one pattern or a list), or the single
    pattern ['/api{/*path}']. *)
Theorem renderIndex_spec (options : option Static.ServeOptions)
        (router : Static.Router) (originalUrl : string) :
  serveStatic options = Normal router ->
  let pathname := Static.pathname_of originalUrl in
  (Static.static_root router
   = match options with
     | Some {| Static.path := Some p |} => p
     | _ => join cwd "public"
     end) /\
  ((Static.renderIndex router originalUrl = [Static.Next] /\
    exists pattern matcher,
      In pattern (Static.excludes_of options) /\
      pathMatch pattern = Normal matcher /\ matcher pathname = true)
   \/
   (Static.renderIndex router originalUrl
    = [Static.SendFile (join (Static.static_root router) "index.html")] /\
    forall pattern matcher,
      In pattern (Static.excludes_of options) ->
      pathMatch pattern = Normal matcher -> matcher pathname = false)).
Proof.
  intros Hrouter pathname. rewrite serveStatic_unfold in Hrouter.
  cbv zeta in Hrouter.
  destruct (compile (Static.excludes_of options)) as [ms|e] eqn:Hc;
    [|discriminate Hrouter].
  destruct (expressRouter _) as [built|e]; [|discriminate Hrouter].
  injection Hrouter as <-. cbn [Static.static_root Static.renderIndex].
  split; [reflexivity|].
  pose proof (compile_matchers _ ms Hc pathname) as Hiff.
  fold pathname.
  destruct (Static.isExcluded ms pathname) eqn:Hex.
  - left. split; [reflexivity|]. now apply Hiff.
  - right. split; [reflexivity|].
    intros pattern matcher Hin Hp.
    destruct (matcher pathname) eqn:Hm; [|reflexivity].
    assert (Htrue : false = true) by (apply Hiff; eauto).
    discriminate Htrue.
Qed.

(** X13: the query string plays no part: a URL and the same URL followed
    by [?] and anything get the same answer from the fallback. *)
Theorem renderIndex_ignores_query (options : option Static.ServeOptions)
        (router : Static.Router) (p q : string) :
  serveStatic options = Normal router ->
  Str.all_chars (fun c => negb (Ascii.eqb c "?")) p = true ->
  Static.renderIndex router (p ++ String "?" q) = Static.renderIndex router p.
Proof.
  intros Hrouter Hp. rewrite serveStatic_unfold in Hrouter.
  cbv zeta in Hrouter.
  destruct (compile (Static.excludes_of options)) as [ms|e];
    [|discriminate Hrouter].
  destruct (expressRouter _) as [built|e]; [|discriminate Hrouter].
  injection Hrouter as <-. cbn [Static.renderIndex].
  destruct (pathname_of_query p q Hp) as [-> ->]. reflexivity.
Qed.

Lemma compile_success (excludes : list string) :
  (forall q, In q excludes -> exists m, pathMatch q = Normal m) ->
  exists ms, compile excludes = Normal ms.
Proof.
  induction excludes as [|p ps IH]; intros Hall; simpl.
  - now exists [].
  - destruct (Hall p (or_introl eq_refl)) as [m ->].
    destruct IH as [ms ->]; [intros q Hq; apply Hall; now right|].
    now exists (m :: ms).
Qed.

(** X14: how [serveStatic] ends, in the order of the source.  If an
    exclude pattern is rejected by the matcher library, [serveStatic]
    throws the exception of the first rejected pattern, before the host
    builds the router.  If every pattern compiles and the host throws
    while building the router (as [express.static] does for an empty
    root), [serveStatic] throws that exception.  If every pattern
    compiles and the host builds the router, [serveStatic] returns a
    router serving the directory of the options. *)
Theorem serveStatic_failure (options : option Static.ServeOptions) :
  (forall e before pattern after,
      Static.excludes_of options = (before ++ pattern :: after)%list ->
      (forall q, In q before -> exists m, pathMatch q = Normal m) ->
      pathMatch pattern = Throw e ->
      serveStatic options = Throw e) /\
  (forall e,
      (forall q, In q (Static.excludes_of options) ->
                 exists m, pathMatch q = Normal m) ->
      expressRouter (Static.root_of join cwd options) = Throw e ->
      serveStatic options = Throw e) /\
  ((forall q, In q (Static.excludes_of options) ->
              exists m, pathMatch q = Normal m) ->
   expressRouter (Static.root_of join cwd options) = Normal tt ->
   exists router,
     serveStatic options = Normal router /\
     Static.static_root router = Static.root_of join cwd options).
Proof.
  rewrite serveStatic_unfold. cbv zeta.
  change (match options with
          | Some {| Static.path := Some p |} => p
          | _ => join cwd "public"
          end) with (Static.root_of join cwd options).
  split; [|split].
  - intros e before pattern after Heq Hbefore Hp.
    assert (Hc : compile (Static.excludes_of options) = Throw e)
      by (apply compile_failure; eauto 6).
    now rewrite Hc.
  - intros e Hall Hhost.
    destruct (compile_success _ Hall) as [ms ->]. now rewrite Hhost.
  - intros Hall Hhost.
    destruct (compile_success _ Hall) as [ms ->]. rewrite Hhost.
    eexists. split; reflexivity.
Qed.

End ServeStaticFacts.

Lemma renderIndex_spec_witness :
  let pathMatch : string -> completion (string -> bool) :=
    fun pattern => Normal (fun pathname => String.prefix pattern pathname) in
  let join : string -> string -> string := fun a b => (a ++ "/" ++ b)%string in
  let options := Some {| Static.exclude := Some (Static.Pattern "/api");
                         Static.path := Some "dist" |} in
  let expressRouter : string -> completion unit :=
    fun root => if String.eqb root ""
                then Throw (TypeError_new "root path required")
                else Normal tt in
  exists router,
    Static.serveStatic pathMatch join "/srv" expressRouter options
    = Normal router /\
    Static.renderIndex router "/api/users?page=2" = [Static.Next] /\
    Static.renderIndex router "/about" = [Static.SendFile "dist/index.html"].
Proof.
  intros pathMatch join options expressRouter.
  eexists. split; [reflexivity|]. split.
  - destruct (renderIndex_spec pathMatch join "/srv" expressRouter options _
                "/api/users?page=2" eq_refl) as [_ [[H _] | [_ Hno]]].
    + exact H.
    + specialize (Hno "/api" _ (or_introl eq_refl) eq_refl).
      discriminate Hno.
  - destruct (renderIndex_spec pathMatch join "/srv" expressRouter options _
                "/about" eq_refl) as [_ [[_ (p & m & Hin & Hp & Hm)] | [H _]]].
    + destruct Hin as [<- | []]. injection Hp as <-. discriminate Hm.
    + exact H.
Defined.

Lemma renderIndex_ignores_query_witness :
  let pathMatch : string -> completion (string -> bool) :=
    fun pattern => Normal (fun pathname => String.prefix pattern pathname) in
  let join : string -> string -> string := fun a b => (a ++ "/" ++ b)%string in
  let expressRouter : string -> completion unit := fun _ => Normal tt in
  exists router,
    Static.serveStatic pathMatch join "/srv" expressRouter None
    = Normal router /\
    Static.renderIndex router "/about?ref=1" = Static.renderIndex router "/about".
Proof.
  intros pathMatch join expressRouter. eexists. split; [reflexivity|].
  apply (renderIndex_ignores_query pathMatch join "/srv" expressRouter None _
                                   "/about" "ref=1"); reflexivity.
Defined.

Lemma serveStatic_failure_witness :
  let pathMatch : string -> completion (string -> bool) :=
    fun pattern =>
      if String.eqb pattern "/api("
      then Throw (TypeError_new "Unterminated group")
      else Normal (fun pathname => String.prefix pattern pathname) in
  let join : string -> string -> string := fun a b => (a ++ "/" ++ b)%string in
  let expressRouter : string -> completion unit :=
    fun root => if String.eqb root ""
                then Throw (TypeError_new "root path required")
                else Normal tt in
  let serve := Static.serveStatic pathMatch join "/srv" expressRouter in
  serve (Some {| Static.exclude := Some (Static.Patterns ["/api"; "/api("]);
                 Static.path := Some "" |})
  = Throw (TypeError_new "Unterminated group") /\
  serve (Some {| Static.exclude := None; Static.path := Some "" |})
  = Throw (TypeError_new "root path required") /\
  exists router, serve None = Normal router /\
                 Static.static_root router = "/srv/public".
Proof.
  intros pathMatch join expressRouter serve. split; [|split].
  - apply (proj1 (serveStatic_failure pathMatch join "/srv" expressRouter _)
                 _ ["/api"] "/api(" []); [reflexivity | | reflexivity].
    intros q [<- | []]. eexists. reflexivity.
  - apply (proj1 (proj2 (serveStatic_failure pathMatch join "/srv"
                           expressRouter _))); [|reflexivity].
    intros q [<- | []]. eexists. reflexivity.
  - apply (proj2 (proj2 (serveStatic_failure pathMatch join "/srv"
                           expressRouter None))); [|reflexivity].
    intros q [<- | []]. eexists. reflexivity.
Defined.

(** ** Thrown primitives *)

(** X15: when the value thrown is a primitive (a string, a number, a
    boolean), it has no [message] and no [stack]: even with [isDev] true
    the body written carries an undefined message and no [detail], so the
    text of a thrown string does not reach the client. *)
Theorem globalErrorHandler_thrown_primitive
        (w : option (value -> M unit)) (err : value) (req : Request)
        (res : Response) (next : NextFunction) (t t' : trace) :
  is_object err = false -> is_nullish err = false ->
  run (optional_call w err) t = (Normal tt, t') ->
  run (globalErrorHandler (Some {| isDev := Some true; write := w |})
                          err req res next) t
  = (Normal (VResponse res),
     (t' ++ [ResStatus 500;
             ResJson (VObject [("status", VNumber 500);
                               ("error", VString "InternalServerError");
                               ("message", VUndefined)])])%list).
Proof.
  intros Hprim Hnull Hw.
  rewrite (globalErrorHandler_unclassified true w err req res next t t');
    try assumption.
  - destruct err; try discriminate Hprim; try discriminate Hnull; reflexivity.
  - destruct err; try discriminate Hprim; reflexivity.
Qed.

Lemma globalErrorHandler_thrown_primitive_witness :
  run (globalErrorHandler None (VString "oops") VNull 0%nat next_stage) []
  = (Normal (VResponse 0),
     [ResStatus 500;
      ResJson (VObject [("status", VNumber 500);
                        ("error", VString "InternalServerError");
                        ("message", VUndefined)])]).
Proof.
  apply (globalErrorHandler_thrown_primitive None (VString "oops") VNull 0%nat
           next_stage [] []); reflexivity.
Defined.
